(** * A digital media catalogue: records, filters and the library

    Shallow embedding of [src/media.py], [src/content_types.py] and
    [src/library.py], followed by the properties of the catalogue that the
    specification states.

    Conventions of the embedding.
    - A Python [str] is a [string]; its characters are the code points
      U+0000..U+00FF.  [lower] and [isspace] follow Python on that range.
    - A Python [int] is a [Z].  A finite Python [float] is the rational
      [Q] that it denotes; the arithmetic of floats is the arithmetic of
      rationals followed by the rounding of binary64 ([Float.round]).
    - A naive [datetime] is a [Z], the number of microseconds since
      1970-01-01 00:00:00; [timedelta(days=d)] is [d * 86400000000].
      [datetime.now()] is the parameter [now] of the operation that reads
      the clock.  The functions of the module [Raising] model the calls
      whose date arithmetic can leave the range of [datetime] and raise
      OverflowError; the functions of the same names outside it give the
      value of the call when it returns.
    - An object is named by its identity, a [loc]; the [heap] gives the
      current state of every object.  A list of records is a list of
      identities, as a Python list is a list of references.
    - A method that can raise returns an [outcome]; a method that mutates
      [self] returns the new [self] next to it. *)

From Stdlib Require Import List String Ascii ZArith NArith QArith Qabs Bool Lia.
From Stdlib Require Import Permutation Sorted.
From Stdlib Require Import Decimal DecimalString DecimalPos DecimalZ.
Import ListNotations.

Set Implicit Arguments.
Local Open Scope string_scope.
Local Open Scope list_scope.
Local Open Scope Z_scope.

(** ** Exceptions *)

Inductive exn : Type :=
| ValueError (msg : string)
| NameError (name : string)
| OverflowError.

Inductive outcome (A : Type) : Type :=
| Return (a : A)
| Raise (e : exn).
Arguments Return {A} a.
Arguments Raise {A} e.

Definition bind {A B : Type} (m : outcome A) (k : A -> outcome B) : outcome B :=
  match m with
  | Return a => k a
  | Raise e => Raise e
  end.

Notation "x <- m ;; k" := (bind m (fun x => k))
  (at level 61, m at next level, right associativity).

(** ** Python strings *)

Module Str.

(** [str.isspace] on one character. *)
Definition isspace (c : ascii) : bool :=
  let n := N_of_ascii c in
  (((9 <=? n) && (n <=? 13)) || ((28 <=? n) && (n <=? 32))
   || (n =? 133) || (n =? 160))%N.

(** [str.lower] on one character. *)
Definition lower_char (c : ascii) : ascii :=
  let n := N_of_ascii c in
  if (((65 <=? n) && (n <=? 90))
      || ((192 <=? n) && (n <=? 222) && negb (n =? 215)))%N
  then ascii_of_N (n + 32)
  else c.

Fixpoint lower (s : string) : string :=
  match s with
  | EmptyString => EmptyString
  | String c s' => String (lower_char c) (lower s')
  end.

Fixpoint lstrip (s : string) : string :=
  match s with
  | EmptyString => EmptyString
  | String c s' => if isspace c then lstrip s' else s
  end.

Fixpoint rstrip (s : string) : string :=
  match s with
  | EmptyString => EmptyString
  | String c s' =>
      match rstrip s' with
      | EmptyString => if isspace c then EmptyString else String c EmptyString
      | r => String c r
      end
  end.

(** [s.strip()] *)
Definition strip (s : string) : string := rstrip (lstrip s).

(** Truth value of a string: [bool(s)]. *)
Definition truthy (s : string) : bool :=
  match s with
  | EmptyString => false
  | String _ _ => true
  end.

Fixpoint startswith (s p : string) : bool :=
  match p, s with
  | EmptyString, _ => true
  | String a p', String b s' => Ascii.eqb a b && startswith s' p'
  | String _ _, EmptyString => false
  end.

(** [q in s] for two strings. *)
Fixpoint contains (s q : string) : bool :=
  startswith s q
  || match s with
     | EmptyString => false
     | String _ s' => contains s' q
     end.

(** [s.replace(a, b)] for one-character [a] and [b]. *)
Fixpoint replace_char (a b : ascii) (s : string) : string :=
  match s with
  | EmptyString => EmptyString
  | String c s' =>
      String (if Ascii.eqb c a then b else c) (replace_char a b s')
  end.

(** [str(n)] for an [int], as an f-string prints it. *)
Definition of_int (n : Z) : string := NilZero.string_of_int (Z.to_int n).

End Str.

(** ** Python floats, as far as they are compared *)

Definition Qlt_bool (x y : Q) : bool := negb (Qle_bool y x).

(** ** The arithmetic of Python floats

    A float is an IEEE 754 binary64 number: 53 bits of precision, spacing
    [2^-1074] below [2^-1022], results rounded to the nearest float and to
    the even one of two nearest.  [round] is that rounding of a rational.
    The exponent has no upper bound here: a result beyond the largest
    float stands for the infinity of its sign, and compares with every
    float as that infinity does. *)

Module Float.

Definition pow2 (e : Z) : Q :=
  if 0 <=? e then inject_Z (2 ^ e) else 1 # Z.to_pos (2 ^ (- e)).

(** The floor of the binary logarithm of [n / d]. *)
Definition ilog2 (n d : positive) : Z :=
  let e := Z.log2 (Z.pos n) - Z.log2 (Z.pos d) in
  if (if 0 <=? e then Z.pos d * 2 ^ e <=? Z.pos n
      else Z.pos d <=? Z.pos n * 2 ^ (- e))
  then e
  else e - 1.

(** The integer nearest to [a / b], the even one of two nearest, for
    [0 <= a] and [0 < b]. *)
Definition nearest_even (a b : Z) : Z :=
  let q := a / b in
  let r := a mod b in
  match 2 * r ?= b with
  | Lt => q
  | Gt => q + 1
  | Eq => if Z.even q then q else q + 1
  end.

Definition round (x : Q) : Q :=
  match Qnum x with
  | Z0 => 0%Q
  | Zpos n | Zneg n =>
      let d := Qden x in
      let k := Z.max (ilog2 n d - 52) (-1074) in
      let m :=
        if 0 <=? k then nearest_even (Z.pos n) (Z.pos d * 2 ^ k)
        else nearest_even (Z.pos n * 2 ^ (- k)) (Z.pos d) in
      let y := (inject_Z m * pow2 k)%Q in
      match Qnum x with
      | Zneg _ => (- y)%Q
      | _ => y
      end
  end.

Definition add (x y : Q) : Q := round (x + y).
Definition sub (x y : Q) : Q := round (x - y).
Definition mul (x y : Q) : Q := round (x * y).
Definition div (x y : Q) : Q := round (x / y).

(** [float(n)] for an [int]. *)
Definition of_int (n : Z) : Q := round (inject_Z n).

(** The loop of the builtin [sum] over floats, as CPython has it from
    version 3.12 on: the running sum [hi] and the compensation [lo] of
    Neumaier's summation. *)
Fixpoint sum_loop (l : list Q) (hi lo : Q) : Q * Q :=
  match l with
  | [] => (hi, lo)
  | x :: l' =>
      let t := add hi x in
      let lo' :=
        if Qle_bool (Qabs x) (Qabs hi) then add lo (add (sub hi t) x)
        else add lo (add (sub x t) hi) in
      sum_loop l' t lo'
  end.

(** [sum(l)] for a list of floats that is not empty. *)
Definition sum (l : list Q) : Q :=
  let (hi, lo) := sum_loop l 0%Q 0%Q in
  if Qeq_bool lo 0 then hi else add hi lo.

Arguments round : simpl never.
Arguments add : simpl never.
Arguments sub : simpl never.
Arguments mul : simpl never.
Arguments div : simpl never.
Arguments of_int : simpl never.
Arguments sum : simpl never.

End Float.

(** ** media.py *)

Inductive MediaType : Type := MOVIE | TV_SHOW | MUSIC | PODCAST.

Inductive ContentRating : Type := G | PG | PG_13 | R | NC_17 | UNRATED.

Definition MediaType_eqb (a b : MediaType) : bool :=
  match a, b with
  | MOVIE, MOVIE | TV_SHOW, TV_SHOW | MUSIC, MUSIC | PODCAST, PODCAST => true
  | _, _ => false
  end.

Definition ContentRating_eqb (a b : ContentRating) : bool :=
  match a, b with
  | G, G | PG, PG | PG_13, PG_13 | R, R | NC_17, NC_17 | UNRATED, UNRATED => true
  | _, _ => false
  end.

(** [MediaType.value] *)
Definition MediaType_value (t : MediaType) : string :=
  match t with
  | MOVIE => "movie"
  | TV_SHOW => "tv_show"
  | MUSIC => "music"
  | PODCAST => "podcast"
  end.

(** The arguments a caller may hand to [add_rating]. *)
Inductive pyval : Type :=
| PyInt (z : Z)
| PyBool (b : bool)
| PyFloat (q : Q)
| PyNaN
| PyInf (negative : bool)
| PyStr (s : string)
| PyNone.

Definition microseconds_per_day : Z := 86400000000.

(** [timedelta(days=d)] *)
Definition timedelta_days (d : Z) : Z := d * microseconds_per_day.

Module MediaContent.

Record t : Type := mk {
  _title : string;
  _duration_minutes : Z;
  _release_date : Z;
  _content_rating : ContentRating;
  _genres : list string;
  _description : string;
  _view_count : Z;
  _average_rating : Q;
  _ratings : list Q;
  _created_at : Z
}.

(** [MediaContent.__init__].  The arguments have the types of the
    annotations, so the [isinstance] tests of the source hold. *)
Definition init (now : Z) (title : string) (duration_minutes : Z)
    (release_date : Z) (content_rating : ContentRating)
    (genres : list string) (description : string) : outcome t :=
  if negb (Str.truthy title) then
    Raise (ValueError "Title must be a non-empty string")
  else if duration_minutes <=? 0 then
    Raise (ValueError "Duration must be a positive integer")
  else if match genres with [] => true | _ :: _ => false end then
    Raise (ValueError "Genres must be a non-empty list")
  else
    Return {| _title := Str.strip title;
              _duration_minutes := duration_minutes;
              _release_date := release_date;
              _content_rating := content_rating;
              _genres := map (fun genre => Str.lower (Str.strip genre)) genres;
              _description := Str.strip description;
              _view_count := 0;
              _average_rating := 0%Q;
              _ratings := [];
              _created_at := now |}.

Definition title (self : t) : string := _title self.
Definition duration_minutes (self : t) : Z := _duration_minutes self.
Definition release_date (self : t) : Z := _release_date self.
Definition content_rating (self : t) : ContentRating := _content_rating self.
Definition genres (self : t) : list string := _genres self.
Definition description (self : t) : string := _description self.
Definition view_count (self : t) : Z := _view_count self.
Definition average_rating (self : t) : Q := _average_rating self.

Definition add_view (self : t) : t :=
  {| _title := _title self;
     _duration_minutes := _duration_minutes self;
     _release_date := _release_date self;
     _content_rating := _content_rating self;
     _genres := _genres self;
     _description := _description self;
     _view_count := _view_count self + 1;
     _average_rating := _average_rating self;
     _ratings := _ratings self;
     _created_at := _created_at self |}.

(** [isinstance(rating, (int, float)) and 1.0 <= rating <= 5.0], with the
    value [float(rating)] when the test holds. *)
Definition accepted_rating (rating : pyval) : option Q :=
  let in_range (q : Q) :=
    if Qle_bool 1 q && Qle_bool q 5 then Some q else None in
  match rating with
  | PyInt z => in_range (inject_Z z)
  | PyBool b => in_range (if b then 1%Q else 0%Q)
  | PyFloat q => in_range q
  | PyNaN | PyInf _ | PyStr _ | PyNone => None
  end.

(** [len(l)] *)
Definition len (l : list Q) : Z := Z.of_nat (List.length l).

Definition add_rating (rating : pyval) (self : t) : t * outcome unit :=
  match accepted_rating rating with
  | None => (self, Raise (ValueError "Rating must be between 1.0 and 5.0"))
  | Some r =>
      let ratings := _ratings self ++ [r] in
      ({| _title := _title self;
          _duration_minutes := _duration_minutes self;
          _release_date := _release_date self;
          _content_rating := _content_rating self;
          _genres := _genres self;
          _description := _description self;
          _view_count := _view_count self;
          _average_rating :=
            Float.div (Float.sum ratings) (Float.of_int (len ratings));
          _ratings := ratings;
          _created_at := _created_at self |},
       Return tt)
  end.

Definition matches_genre (self : t) (genre : string) : bool :=
  existsb (String.eqb (Str.strip (Str.lower genre))) (_genres self).

(** The value of the call when its date arithmetic stays in range;
    [Raising.is_recently_released] is the call. *)
Definition is_recently_released (now : Z) (self : t) (days : Z) : bool :=
  let cutoff_date := now - timedelta_days days in
  cutoff_date <=? _release_date self.

Definition is_age_appropriate (self : t) (user_age : Z) : bool :=
  match content_rating self with
  | G | UNRATED => true
  | PG => true
  | PG_13 => 13 <=? user_age
  | R => 17 <=? user_age
  | NC_17 => 18 <=? user_age
  end.

Definition matches_search (self : t) (query : string) : bool :=
  let q := Str.strip (Str.lower query) in
  if Str.contains (Str.lower (title self)) q then true
  else if Str.contains (Str.lower (description self)) q then true
  else if existsb (fun genre => Str.contains genre q) (genres self) then true
  else false.

(** [divmod] rounds to the floor, as [Z.div] and [Z.modulo] do for the
    divisor 60. *)
Definition duration_formatted (self : t) : string :=
  let hours := _duration_minutes self / 60 in
  let minutes := _duration_minutes self mod 60 in
  if 0 <? hours then
    (Str.of_int hours ++ "h " ++ Str.of_int minutes ++ "m")%string
  else (Str.of_int minutes ++ "m")%string.

End MediaContent.

(** ** content_types.py *)

(** Truth value of an [Optional[float]]: [None] and [0.0] are false. *)
Definition truthy_float (o : option Q) : bool :=
  match o with
  | Some q => negb (Qeq_bool q 0)
  | None => false
  end.

(** Truth value of an [Optional[int]]: [None] and [0] are false. *)
Definition truthy_int (o : option Z) : bool :=
  match o with
  | Some z => negb (z =? 0)
  | None => false
  end.

(** The values of a metadata dictionary. *)
Inductive meta : Type :=
| MetaStr (s : string)
| MetaList (l : list string)
| MetaFloat (o : option Q)
| MetaBool (b : bool).

(** [d[key]] on a dictionary kept as its items in insertion order. *)
Fixpoint dict_get (d : list (string * meta)) (key : string) : option meta :=
  match d with
  | [] => None
  | (k, v) :: d' => if String.eqb k key then Some v else dict_get d' key
  end.

Module Movie.

Record t : Type := mk {
  base : MediaContent.t;
  _director : string;
  _cast : list string;
  _budget : option Q;
  _box_office : option Q
}.

(** [Movie.__init__] *)
Definition init (now : Z) (title : string) (duration_minutes : Z)
    (release_date : Z) (content_rating : ContentRating)
    (genres : list string) (description : string)
    (director : string) (cast : list string)
    (budget box_office : option Q) : outcome t :=
  super <- MediaContent.init now title duration_minutes release_date
             content_rating genres description ;;
  if negb (Str.truthy director) then
    Raise (ValueError "Director must be a non-empty string")
  else
    Return {| base := super;
              _director := Str.strip director;
              _cast := map Str.strip
                         (filter (fun actor => Str.truthy (Str.strip actor)) cast);
              _budget := budget;
              _box_office := box_office |}.

Definition director (self : t) : string := _director self.
Definition cast (self : t) : list string := _cast self.
Definition budget (self : t) : option Q := _budget self.
Definition box_office (self : t) : option Q := _box_office self.

Definition get_media_type (self : t) : MediaType := MOVIE.

Definition can_stream (now : Z) (self : t) : bool :=
  negb (MediaContent.is_recently_released now (base self) 90).

Definition slug (s : string) : string :=
  Str.replace_char " "%char "-"%char (Str.lower s).

Definition get_streaming_url (now : Z) (self : t) : outcome string :=
  if negb (can_stream now self) then
    Raise (ValueError "Movie not available for streaming yet")
  else
    Return ("https://stream.example.com/movies/"
              ++ slug (MediaContent.title (base self)))%string.

Definition _is_blockbuster (self : t) : bool :=
  if truthy_float (_budget self) && truthy_float (_box_office self) then
    match _budget self, _box_office self with
    | Some b, Some o => Qlt_bool (Float.mul b 3) o
    | _, _ => false
    end
  else false.

Definition get_metadata (self : t) : list (string * meta) :=
  [ ("type", MetaStr (MediaType_value (get_media_type self)));
    ("director", MetaStr (director self));
    ("cast", MetaList (cast self));
    ("budget", MetaFloat (budget self));
    ("box_office", MetaFloat (box_office self));
    ("is_blockbuster", MetaBool (_is_blockbuster self)) ].

End Movie.

Module TVShow.

Record t : Type := mk {
  base : MediaContent.t;
  _seasons : Z;
  _total_episodes : Z;
  _status : string
}.

Definition init (now : Z) (title : string) (duration_minutes : Z)
    (release_date : Z) (content_rating : ContentRating)
    (genres : list string) (description : string)
    (seasons total_episodes : Z) (status : string) : outcome t :=
  super <- MediaContent.init now title duration_minutes release_date
             content_rating genres description ;;
  if seasons <=? 0 then
    Raise (ValueError "Seasons must be a positive integer")
  else if total_episodes <=? 0 then
    Raise (ValueError "Total episodes must be a positive integer")
  else if negb (existsb (String.eqb status) ["ongoing"; "completed"; "cancelled"]) then
    Raise (ValueError "Status must be 'ongoing', 'completed', or 'cancelled'")
  else
    Return {| base := super;
              _seasons := seasons;
              _total_episodes := total_episodes;
              _status := status |}.

Definition get_media_type (self : t) : MediaType := TV_SHOW.
Definition can_stream (self : t) : bool := true.

Definition seasons (self : t) : Z := _seasons self.
Definition total_episodes (self : t) : Z := _total_episodes self.
Definition status (self : t) : string := _status self.

Definition average_episode_duration (self : t) : Z :=
  MediaContent.duration_minutes (base self).

Definition total_runtime_minutes (self : t) : Z :=
  MediaContent.duration_minutes (base self) * _total_episodes self.

Definition get_streaming_url (self : t) : string :=
  ("https://stream.example.com/shows/"
     ++ Str.replace_char " "%char "-"%char
          (Str.lower (MediaContent.title (base self))))%string.

End TVShow.

Module Music.

Record t : Type := mk {
  base : MediaContent.t;
  _artist : string;
  _album : string;
  _track_number : Z;
  _is_explicit : bool
}.

Definition init (now : Z) (title : string) (duration_minutes : Z)
    (release_date : Z) (content_rating : ContentRating)
    (genres : list string) (description : string)
    (artist album : string) (track_number : Z) (is_explicit : bool) : outcome t :=
  super <- MediaContent.init now title duration_minutes release_date
             content_rating genres description ;;
  if negb (Str.truthy artist) then
    Raise (ValueError "Artist must be a non-empty string")
  else if negb (Str.truthy album) then
    Raise (ValueError "Album must be a non-empty string")
  else if track_number <=? 0 then
    Raise (ValueError "Track number must be a positive integer")
  else
    Return {| base := super;
              _artist := Str.strip artist;
              _album := Str.strip album;
              _track_number := track_number;
              _is_explicit := is_explicit |}.

Definition get_media_type (self : t) : MediaType := MUSIC.
Definition can_stream (self : t) : bool := true.

Definition get_streaming_url (self : t) : string :=
  ("https://stream.example.com/music/"
     ++ Str.replace_char " "%char "-"%char
          (Str.lower (MediaContent.title (base self))))%string.

End Music.

Module Podcast.

Record t : Type := mk {
  base : MediaContent.t;
  _host : string;
  _episode_number : Z;
  _season_number : Z;
  _transcript_available : bool
}.

Definition init (now : Z) (title : string) (duration_minutes : Z)
    (release_date : Z) (content_rating : ContentRating)
    (genres : list string) (description : string)
    (host : string) (episode_number season_number : Z)
    (transcript_available : bool) : outcome t :=
  super <- MediaContent.init now title duration_minutes release_date
             content_rating genres description ;;
  if negb (Str.truthy host) then
    Raise (ValueError "Host must be a non-empty string")
  else if episode_number <=? 0 then
    Raise (ValueError "Episode number must be a positive integer")
  else if season_number <=? 0 then
    Raise (ValueError "Season number must be a positive integer")
  else
    Return {| base := super;
              _host := Str.strip host;
              _episode_number := episode_number;
              _season_number := season_number;
              _transcript_available := transcript_available |}.

Definition get_media_type (self : t) : MediaType := PODCAST.
Definition can_stream (self : t) : bool := true.

Definition host (self : t) : string := _host self.
Definition episode_number (self : t) : Z := _episode_number self.
Definition season_number (self : t) : Z := _season_number self.

(** The two numbers are [int]s proper.  A [bool], which the constructor
    takes for an [int] and an f-string prints as [True] or [False], is
    outside [Z]. *)
Definition get_streaming_url (self : t) : string :=
  ("https://stream.example.com/podcasts/"
     ++ Str.replace_char " "%char "-"%char (Str.lower (host self)) ++ "/"
     ++ Str.replace_char " "%char "-"%char
          (Str.lower (MediaContent.title (base self))) ++ "/"
     ++ "s" ++ Str.of_int (season_number self)
     ++ "e" ++ Str.of_int (episode_number self))%string.

End Podcast.

(** ** Objects and the heap *)

(** An instance of one of the four concrete classes. *)
Inductive object : Type :=
| AMovie (m : Movie.t)
| ATVShow (s : TVShow.t)
| AMusic (m : Music.t)
| APodcast (p : Podcast.t).

(** The [MediaContent] part of an object. *)
Definition super (o : object) : MediaContent.t :=
  match o with
  | AMovie m => Movie.base m
  | ATVShow s => TVShow.base s
  | AMusic m => Music.base m
  | APodcast p => Podcast.base p
  end.

Definition with_super (o : object) (b : MediaContent.t) : object :=
  match o with
  | AMovie m =>
      AMovie (Movie.mk b (Movie._director m) (Movie._cast m)
                (Movie._budget m) (Movie._box_office m))
  | ATVShow s =>
      ATVShow (TVShow.mk b (TVShow._seasons s) (TVShow._total_episodes s)
                 (TVShow._status s))
  | AMusic m =>
      AMusic (Music.mk b (Music._artist m) (Music._album m)
                (Music._track_number m) (Music._is_explicit m))
  | APodcast p =>
      APodcast (Podcast.mk b (Podcast._host p) (Podcast._episode_number p)
                  (Podcast._season_number p) (Podcast._transcript_available p))
  end.

(** Dynamic dispatch of [get_media_type] and [can_stream]. *)
Definition get_media_type (o : object) : MediaType :=
  match o with
  | AMovie m => Movie.get_media_type m
  | ATVShow s => TVShow.get_media_type s
  | AMusic m => Music.get_media_type m
  | APodcast p => Podcast.get_media_type p
  end.

Definition can_stream (now : Z) (o : object) : bool :=
  match o with
  | AMovie m => Movie.can_stream now m
  | ATVShow s => TVShow.can_stream s
  | AMusic m => Music.can_stream m
  | APodcast p => Podcast.can_stream p
  end.

(** Dynamic dispatch of [get_streaming_url]. *)
Definition get_streaming_url (now : Z) (o : object) : outcome string :=
  match o with
  | AMovie m => Movie.get_streaming_url now m
  | ATVShow s => Return (TVShow.get_streaming_url s)
  | AMusic m => Return (Music.get_streaming_url m)
  | APodcast p => Return (Podcast.get_streaming_url p)
  end.

(** The identity of an object, [id(o)]. *)
Definition loc : Type := nat.

(** The state of every object. *)
Definition heap : Type := loc -> object.

Definition update (h : heap) (c : loc) (o : object) : heap :=
  fun c' => if Nat.eqb c' c then o else h c'.

(** [h[c].add_view()] and [h[c].add_rating(rating)] *)
Definition add_view (c : loc) (h : heap) : heap :=
  update h c (with_super (h c) (MediaContent.add_view (super (h c)))).

Definition add_rating (c : loc) (rating : pyval) (h : heap) : heap * outcome unit :=
  let (b, r) := MediaContent.add_rating rating (super (h c)) in
  (update h c (with_super (h c) b), r).

(** ** Python lists and [sorted] *)

Module Py.

(** [x in l] for a list of objects of a class without [__eq__]: equality is
    identity. *)
Definition contains (l : list loc) (x : loc) : bool := existsb (Nat.eqb x) l.

(** [l.remove(x)]: the list without its first item equal to [x], or
    [ValueError] when there is none. *)
Fixpoint remove (l : list loc) (x : loc) : outcome (list loc) :=
  match l with
  | [] => Raise (ValueError "list.remove(x): x not in list")
  | y :: l' =>
      if Nat.eqb y x then Return l'
      else (r <- remove l' x ;; Return (y :: r))
  end.

(** [l[:stop]] *)
Definition slice_to (A : Type) (l : list A) (stop : Z) : list A :=
  let n := Z.of_nat (List.length l) in
  let stop' := if stop <? 0 then Z.max 0 (n + stop) else Z.min stop n in
  firstn (Z.to_nat stop') l.

Section Sorted.

Variable A : Type.

(** The only comparison the sort makes: [lt x y] is [x < y]. *)
Variable lt : A -> A -> bool.

(** [x] stood before every item of [l]: it passes the items that are
    less than it and no other. *)
Fixpoint insert (x : A) (l : list A) : list A :=
  match l with
  | [] => [x]
  | y :: l' => if lt y x then y :: insert x l' else x :: l
  end.

Fixpoint stable_sort (l : list A) : list A :=
  match l with
  | [] => []
  | x :: l' => insert x (stable_sort l')
  end.

End Sorted.

(** [sorted(l, key=key, reverse=reverse)] for float keys.  Python's sort is
    stable, and with [reverse] it sorts as if each comparison were
    reversed; a stable sort has one result, which [stable_sort] computes. *)
Definition sorted (A : Type) (l : list A) (key : A -> Q) (reverse : bool)
  : list A :=
  stable_sort
    (fun x y =>
       if reverse then Qlt_bool (key y) (key x) else Qlt_bool (key x) (key y))
    l.

(** [sorted(l, key=key, reverse=reverse)] for [int] keys. *)
Definition sorted_int (A : Type) (l : list A) (key : A -> Z) (reverse : bool)
  : list A :=
  stable_sort
    (fun x y => if reverse then key y <? key x else key x <? key y)
    l.

End Py.

(** ** library.py

    The module is taken as loaded, with the names below in its namespace.
    The return annotation of [get_statistics] names [Any], which the module
    does not import; an interpreter that evaluates annotations when a
    function is defined (before Python 3.14) stops there with NameError,
    and no method of the library can then be called. *)

(** The names bound at the top level of [library.py]: what it imports and
    the two classes it defines.  No builtin is called [timedelta]. *)
Definition library_globals : list string :=
  [ "List"; "Dict"; "Optional"; "Set"; "Callable"; "datetime";
    "MediaContent"; "MediaType"; "ContentRating"; "Movie"; "TVShow";
    "SearchFilter"; "MediaLibrary" ].

(** Evaluation of a global name in a function of [library.py]. *)
Definition global_name (name : string) : outcome unit :=
  if existsb (String.eqb name) library_globals then Return tt
  else Raise (NameError ("name '" ++ name ++ "' is not defined")%string).

Module SearchFilter.

Record t : Type := mk {
  genres : list string;
  media_types : list MediaType;
  content_ratings : list ContentRating;
  min_rating : option Q;
  max_duration : option Z;
  recently_released_days : option Z
}.

Definition init : t :=
  {| genres := [];
     media_types := [];
     content_ratings := [];
     min_rating := None;
     max_duration := None;
     recently_released_days := None |}.

(** [s.add(x)] on a set kept as a duplicate-free list. *)
Definition set_add (A : Type) (eqb : A -> A -> bool) (x : A) (s : list A)
  : list A :=
  if existsb (eqb x) s then s else s ++ [x].

Definition add_genre_filter (genre : string) (self : t) : t :=
  {| genres := set_add String.eqb (Str.strip (Str.lower genre)) (genres self);
     media_types := media_types self;
     content_ratings := content_ratings self;
     min_rating := min_rating self;
     max_duration := max_duration self;
     recently_released_days := recently_released_days self |}.

Definition add_type_filter (media_type : MediaType) (self : t) : t :=
  {| genres := genres self;
     media_types := set_add MediaType_eqb media_type (media_types self);
     content_ratings := content_ratings self;
     min_rating := min_rating self;
     max_duration := max_duration self;
     recently_released_days := recently_released_days self |}.

(** Returns [self], mutated, or raises and leaves it as it was. *)
Definition set_rating_filter (min_rating' : Q) (self : t) : outcome t :=
  if negb (Qle_bool 1 min_rating' && Qle_bool min_rating' 5) then
    Raise (ValueError "Rating must be between 1.0 and 5.0")
  else
    Return {| genres := genres self;
              media_types := media_types self;
              content_ratings := content_ratings self;
              min_rating := Some min_rating';
              max_duration := max_duration self;
              recently_released_days := recently_released_days self |}.

Definition nonempty (A : Type) (s : list A) : bool :=
  match s with [] => false | _ :: _ => true end.

(** The value of the call when it returns; [Raising.matches] is the
    call. *)
Definition matches (now : Z) (self : t) (content : object) : bool :=
  if nonempty (genres self)
     && negb (existsb (MediaContent.matches_genre (super content)) (genres self))
  then false
  else if nonempty (media_types self)
          && negb (existsb (MediaType_eqb (get_media_type content))
                     (media_types self))
  then false
  else if nonempty (content_ratings self)
          && negb (existsb
                     (ContentRating_eqb
                        (MediaContent.content_rating (super content)))
                     (content_ratings self))
  then false
  else if truthy_float (min_rating self)
          && match min_rating self with
             | Some m => Qlt_bool (MediaContent.average_rating (super content)) m
             | None => false
             end
  then false
  else if truthy_int (max_duration self)
          && match max_duration self with
             | Some d => d <? MediaContent.duration_minutes (super content)
             | None => false
             end
  then false
  else if truthy_int (recently_released_days self)
          && match recently_released_days self with
             | Some d =>
                 negb (MediaContent.is_recently_released now (super content) d)
             | None => false
             end
  then false
  else true.

End SearchFilter.

Module MediaLibrary.

Record t : Type := mk {
  _name : string;
  _content : list loc;
  _content_by_type : MediaType -> list loc;
  _total_views : Z;
  _created_at : Z
}.

Definition init (now : Z) (name : string) : t :=
  {| _name := name;
     _content := [];
     _content_by_type := fun media_type => [];
     _total_views := 0;
     _created_at := now |}.

Definition total_content (self : t) : Z := Z.of_nat (List.length (_content self)).

Definition total_views (h : heap) (self : t) : Z :=
  fold_left Z.add
    (map (fun content => MediaContent.view_count (super (h content)))
       (_content self))
    0.

(** [d[key] = value] *)
Definition setitem (d : MediaType -> list loc) (key : MediaType)
    (value : list loc) : MediaType -> list loc :=
  fun k => if MediaType_eqb k key then value else d k.

Definition add_content (h : heap) (content : loc) (self : t)
  : t * outcome unit :=
  if Py.contains (_content self) content then
    (self,
     Raise (ValueError ("Content '" ++ MediaContent.title (super (h content))
                          ++ "' already exists in library")%string))
  else
    let media_type := get_media_type (h content) in
    ({| _name := _name self;
        _content := _content self ++ [content];
        _content_by_type :=
          setitem (_content_by_type self) media_type
            (_content_by_type self media_type ++ [content]);
        _total_views := _total_views self;
        _created_at := _created_at self |},
     Return tt).

Definition title_matches (h : heap) (title : string) (content : loc) : bool :=
  String.eqb (Str.lower (MediaContent.title (super (h content))))
    (Str.lower title).

(** The loop returns at the first record whose title matches. *)
Definition remove_content (h : heap) (title : string) (self : t)
  : t * outcome bool :=
  match find (title_matches h title) (_content self) with
  | None => (self, Return false)
  | Some content =>
      match Py.remove (_content self) content with
      | Raise e => (self, Raise e)
      | Return content' =>
          let self1 :=
            {| _name := _name self;
               _content := content';
               _content_by_type := _content_by_type self;
               _total_views := _total_views self;
               _created_at := _created_at self |} in
          let media_type := get_media_type (h content) in
          match Py.remove (_content_by_type self media_type) content with
          | Raise e => (self1, Raise e)
          | Return index' =>
              ({| _name := _name self;
                  _content := content';
                  _content_by_type :=
                    setitem (_content_by_type self) media_type index';
                  _total_views := _total_views self;
                  _created_at := _created_at self |},
               Return true)
          end
      end
  end.

Definition get_content_by_type (self : t) (media_type : MediaType) : list loc :=
  _content_by_type self media_type.

(** [filters] is [None] or a [SearchFilter], which is always true.  The
    value of the call when it returns; [Raising.search] is the call. *)
Definition search (h : heap) (now : Z) (self : t) (query : string)
    (filters : option SearchFilter.t) : list loc :=
  filter
    (fun content =>
       if Str.truthy query
          && negb (MediaContent.matches_search (super (h content)) query)
       then false
       else if match filters with
               | Some f => negb (SearchFilter.matches now f (h content))
               | None => false
               end
       then false
       else true)
    (_content self).

Definition get_top_rated (h : heap) (self : t) (limit : Z) : list loc :=
  Py.slice_to
    (Py.sorted
       (filter
          (fun c => Qlt_bool 0 (MediaContent.average_rating (super (h c))))
          (_content self))
       (fun x => MediaContent.average_rating (super (h x)))
       true)
    limit.

(** [datetime.now()] is read, then the name [timedelta] is looked up. *)
Definition get_recently_added (h : heap) (now : Z) (self : t) (days : Z)
  : outcome (list loc) :=
  _ <- global_name "timedelta" ;;
  let cutoff := now - timedelta_days days in
  Return
    (filter
       (fun c => cutoff <=? MediaContent._created_at (super (h c)))
       (_content self)).

Definition name (self : t) : string := _name self.

Definition get_most_viewed (h : heap) (self : t) (limit : Z) : list loc :=
  Py.slice_to
    (Py.sorted_int (_content self)
       (fun x => MediaContent.view_count (super (h x)))
       true)
    limit.

End MediaLibrary.

(** ** Calls that can raise OverflowError

    [timedelta(days=days)] raises OverflowError for more than 999999999
    days in either direction, and the difference of a [datetime] and a
    [timedelta] raises it outside the years 1 to 9999.  The message of
    the exception is not modelled. *)

Definition timedelta_max_days : Z := 999999999.

(** [datetime.min] and [datetime.max], in microseconds since 1970. *)
Definition datetime_min : Z := -62135596800000000.
Definition datetime_max : Z := 253402300799999999.

Module Raising.

(** [timedelta(days=days)] *)
Definition timedelta (days : Z) : outcome Z :=
  if Z.abs days <=? timedelta_max_days then Return (timedelta_days days)
  else Raise OverflowError.

(** [t - delta] for a [datetime] and a [timedelta]. *)
Definition datetime_sub (t delta : Z) : outcome Z :=
  let r := t - delta in
  if (datetime_min <=? r) && (r <=? datetime_max) then Return r
  else Raise OverflowError.

(** [MediaContent.is_recently_released] *)
Definition is_recently_released (now : Z) (self : MediaContent.t) (days : Z)
  : outcome bool :=
  delta <- timedelta days ;;
  cutoff_date <- datetime_sub now delta ;;
  Return (cutoff_date <=? MediaContent._release_date self).

(** [SearchFilter.matches]: the sixth test is the one that can raise. *)
Definition matches (now : Z) (self : SearchFilter.t) (content : object)
  : outcome bool :=
  if SearchFilter.nonempty (SearchFilter.genres self)
     && negb (existsb (MediaContent.matches_genre (super content))
                (SearchFilter.genres self))
  then Return false
  else if SearchFilter.nonempty (SearchFilter.media_types self)
          && negb (existsb (MediaType_eqb (get_media_type content))
                     (SearchFilter.media_types self))
  then Return false
  else if SearchFilter.nonempty (SearchFilter.content_ratings self)
          && negb (existsb
                     (ContentRating_eqb
                        (MediaContent.content_rating (super content)))
                     (SearchFilter.content_ratings self))
  then Return false
  else if truthy_float (SearchFilter.min_rating self)
          && match SearchFilter.min_rating self with
             | Some m => Qlt_bool (MediaContent.average_rating (super content)) m
             | None => false
             end
  then Return false
  else if truthy_int (SearchFilter.max_duration self)
          && match SearchFilter.max_duration self with
             | Some d => d <? MediaContent.duration_minutes (super content)
             | None => false
             end
  then Return false
  else
    match SearchFilter.recently_released_days self with
    | Some d =>
        if negb (d =? 0) then
          recent <- is_recently_released now (super content) d ;;
          if negb recent then Return false else Return true
        else Return true
    | None => Return true
    end.

(** The loop of [MediaLibrary.search]; [results] is the list built so
    far. *)
Fixpoint search_loop (h : heap) (now : Z) (query : string)
    (filters : option SearchFilter.t) (l : list loc) (results : list loc)
  : outcome (list loc) :=
  match l with
  | [] => Return results
  | content :: l' =>
      if Str.truthy query
         && negb (MediaContent.matches_search (super (h content)) query)
      then search_loop h now query filters l' results
      else
        match filters with
        | Some f =>
            m <- matches now f (h content) ;;
            if negb m then search_loop h now query filters l' results
            else search_loop h now query filters l' (results ++ [content])
        | None => search_loop h now query filters l' (results ++ [content])
        end
  end.

(** [MediaLibrary.search] *)
Definition search (h : heap) (now : Z) (self : MediaLibrary.t)
    (query : string) (filters : option SearchFilter.t) : outcome (list loc) :=
  search_loop h now query filters (MediaLibrary._content self) [].

End Raising.

(** ** Histories of a library

    What a program can do to a library and to the records it holds. *)

Inductive operation : Type :=
| AddContent (content : loc)
| RemoveContent (title : string)
| AddView (content : loc)
| AddRating (content : loc) (rating : pyval).

Definition step (s : heap * MediaLibrary.t) (o : operation)
  : heap * MediaLibrary.t :=
  let (h, lib) := s in
  match o with
  | AddContent c => (h, fst (MediaLibrary.add_content h c lib))
  | RemoveContent title => (h, fst (MediaLibrary.remove_content h title lib))
  | AddView c => (add_view c h, lib)
  | AddRating c rating => (fst (add_rating c rating h), lib)
  end.

Definition run (s : heap * MediaLibrary.t) (ops : list operation)
  : heap * MediaLibrary.t :=
  fold_left step ops s.

(** ** A small catalogue for the examples *)

Definition sample_base (title : string) : MediaContent.t :=
  {| MediaContent._title := title;
     MediaContent._duration_minutes := 120;
     MediaContent._release_date := 0;
     MediaContent._content_rating := PG_13;
     MediaContent._genres := ["drama"];
     MediaContent._description := "A film";
     MediaContent._view_count := 0;
     MediaContent._average_rating := 0%Q;
     MediaContent._ratings := [];
     MediaContent._created_at := 0 |}.

Definition sample_movie (title : string) (budget box_office : option Q)
  : Movie.t :=
  {| Movie.base := sample_base title;
     Movie._director := "Director";
     Movie._cast := ["Actor"];
     Movie._budget := budget;
     Movie._box_office := box_office |}.

(** The record after the ratings of [l], given one after the other. *)
Definition rated (o : object) (l : list pyval) : object :=
  fold_left
    (fun o' rating =>
       with_super o' (fst (MediaContent.add_rating rating (super o'))))
    l o.

(** Every object is the same film: two objects are two records with one
    title. *)
Definition twins : heap := fun _ => AMovie (sample_movie "Dune" None None).

(** Four records: A rated 3.0, B rated 5.0, C rated 4.0, D not rated. *)
Definition shelf : heap :=
  fun c =>
    match c with
    | O => rated (AMovie (sample_movie "A" None None)) [PyFloat 3]
    | S O => rated (AMovie (sample_movie "B" None None)) [PyInt 5]
    | S (S O) => rated (AMovie (sample_movie "C" None None)) [PyFloat 4]
    | _ => AMovie (sample_movie "D" None None)
    end.

Definition sample_show (title : string) : TVShow.t :=
  {| TVShow.base := sample_base title;
     TVShow._seasons := 2;
     TVShow._total_episodes := 20;
     TVShow._status := "ongoing" |}.

(** A film, a series and a second film, whose titles differ by case only. *)
Definition mixed : heap :=
  fun c =>
    match c with
    | O => AMovie (sample_movie "Alien" None None)
    | S O => ATVShow (sample_show "ALIEN")
    | _ => AMovie (sample_movie "alien" None None)
    end.

(** A filter whose number of days no [timedelta] holds. *)
Definition far_filter : SearchFilter.t :=
  {| SearchFilter.genres := [];
     SearchFilter.media_types := [];
     SearchFilter.content_ratings := [];
     SearchFilter.min_rating := None;
     SearchFilter.max_duration := None;
     SearchFilter.recently_released_days := Some 1000000000 |}.

(** ** Vocabulary of the specification *)

(** [v] is a number of the interval [1.0, 5.0], and [q] is its value. *)
Inductive rating_in_range : pyval -> Q -> Prop :=
| int_in_range (z : Z) :
    1 <= z <= 5 -> rating_in_range (PyInt z) (inject_Z z)
| true_in_range : rating_in_range (PyBool true) 1%Q
| float_in_range (q : Q) :
    (1 <= q)%Q -> (q <= 5)%Q -> rating_in_range (PyFloat q) q.


(** What [search] asks of a record. *)
Definition search_condition (h : heap) (now : Z) (query : string)
    (filters : option SearchFilter.t) (c : loc) : Prop :=
  (query = EmptyString
   \/ MediaContent.matches_search (super (h c)) query = true)
  /\ (filters = None
      \/ exists f, filters = Some f /\ Raising.matches now f (h c) = Return true).

(** The first five tests of a filter, which read no clock: a set that is
    empty asks nothing and one that is not asks the record to meet one of
    its members; a threshold that is [None] or zero asks nothing. *)
Definition first_five (f : SearchFilter.t) (o : object) : Prop :=
  (SearchFilter.genres f = []
   \/ exists g, In g (SearchFilter.genres f)
                /\ MediaContent.matches_genre (super o) g = true)
  /\ (SearchFilter.media_types f = []
      \/ In (get_media_type o) (SearchFilter.media_types f))
  /\ (SearchFilter.content_ratings f = []
      \/ In (MediaContent.content_rating (super o))
           (SearchFilter.content_ratings f))
  /\ (forall m, SearchFilter.min_rating f = Some m -> ~ (m == 0)%Q ->
                (m <= MediaContent.average_rating (super o))%Q)
  /\ (forall d, SearchFilter.max_duration f = Some d -> d <> 0 ->
                MediaContent.duration_minutes (super o) <= d).

(** The date arithmetic of the last test of a filter stays in range at
    the clock reading [now], or the test is not made. *)
Definition days_in_range (now : Z) (f : SearchFilter.t) : Prop :=
  match SearchFilter.recently_released_days f with
  | None => True
  | Some d =>
      d = 0
      \/ (Z.abs d <= timedelta_max_days
          /\ datetime_min <= now - timedelta_days d <= datetime_max)
  end.

(** The records of kind [k] in a list, in the order of the list. *)
Definition of_kind (h : heap) (k : MediaType) (l : list loc) : list loc :=
  filter (fun c => MediaType_eqb (get_media_type (h c)) k) l.

(** A decimal digit, and a string of decimal digits. *)
Definition is_digit (c : ascii) : bool :=
  let n := N_of_ascii c in ((48 <=? n) && (n <=? 57))%N.

Fixpoint digits (s : string) : Prop :=
  match s with
  | EmptyString => True
  | String c s' => is_digit c = true /\ digits s'
  end.

(** The index and the collection agree. *)
Definition in_sync (s : heap * MediaLibrary.t) : Prop :=
  forall k,
    MediaLibrary._content_by_type (snd s) k
    = of_kind (fst s) k (MediaLibrary._content (snd s)).

(** The two mutators of a record, and a history of calls on one record;
    a call that raises leaves the record as the call left it. *)
Inductive record_call : Type :=
| CallAddView
| CallAddRating (rating : pyval).

Definition call (self : MediaContent.t) (c : record_call) : MediaContent.t :=
  match c with
  | CallAddView => MediaContent.add_view self
  | CallAddRating rating => fst (MediaContent.add_rating rating self)
  end.

Definition calls (self : MediaContent.t) (l : list record_call)
  : MediaContent.t :=
  fold_left call l self.

(** The number of [add_view] calls of a history. *)
Definition views_in (l : list record_call) : Z :=
  Z.of_nat
    (List.length
       (filter (fun c => match c with CallAddView => true | _ => false end) l)).


(** The normal form in which genres are stored and compared. *)
Definition normal (genre : string) : string := Str.lower (Str.strip genre).

(** A string without the character [c]. *)
Fixpoint free_of (c : ascii) (s : string) : Prop :=
  match s with
  | EmptyString => True
  | String c' s' => c' <> c /\ free_of c s'
  end.

(** A state that a new library reaches by some history. *)
Definition reachable (s : heap * MediaLibrary.t) : Prop :=
  exists h0 now name ops, s = run (h0, MediaLibrary.init now name) ops.

(** * Properties *)

(** ** Comparisons of floats *)

Lemma Qlt_bool_iff (x y : Q) : Qlt_bool x y = true <-> (x < y)%Q.
Proof.
  unfold Qlt_bool. rewrite negb_true_iff. split.
  - intros H. apply Qnot_le_lt. intros Hle.
    apply Qle_bool_iff in Hle. congruence.
  - intros H. destruct (Qle_bool y x) eqn:E; [|reflexivity].
    apply Qle_bool_iff in E. exfalso. exact (Qlt_not_le _ _ H E).
Qed.

Lemma Qlt_bool_false_iff (x y : Q) : Qlt_bool x y = false <-> (y <= x)%Q.
Proof.
  unfold Qlt_bool. rewrite negb_false_iff. apply Qle_bool_iff.
Qed.

(** ** Strings *)

Lemma truthy_iff (s : string) : Str.truthy s = true <-> s <> EmptyString.
Proof.
  destruct s; simpl; split; intros; congruence.
Qed.

Lemma truthy_false_iff (s : string) : Str.truthy s = false <-> s = EmptyString.
Proof.
  destruct s; simpl; split; intros; congruence.
Qed.

(** ** Construction *)

Lemma MediaContent_init_ok now title duration_minutes release_date
    content_rating genres description :
  title <> EmptyString -> 0 < duration_minutes -> genres <> [] ->
  MediaContent.init now title duration_minutes release_date content_rating
    genres description
  = Return
      (MediaContent.mk (Str.strip title) duration_minutes release_date
         content_rating
         (map (fun genre => Str.lower (Str.strip genre)) genres)
         (Str.strip description) 0 0%Q [] now).
Proof.
  intros Ht Hd Hg. unfold MediaContent.init.
  apply truthy_iff in Ht. rewrite Ht. simpl.
  destruct (Z.leb_spec duration_minutes 0); [lia|].
  destruct genres; [congruence|]. reflexivity.
Qed.

Example sample_movie_constructed :
  Movie.init 0 "Dune" 120 0 PG_13 ["Drama "] " A film" "Director" ["Actor"]
    None None
  = Return (sample_movie "Dune" None None).
Proof. reflexivity. Qed.

(** C6: a title of blanks passes the test [not title], made before the
    title is trimmed, and the record is constructed with the empty title.
    The claim asks for InvalidArgument there. *)
Theorem init_blank_title_accepted :
  exists r,
    MediaContent.init 0 "   " 120 0 PG ["drama"] "A film" = Return r
    /\ MediaContent.title r = EmptyString
    /\ exists m,
        Movie.init 0 "   " 120 0 PG ["drama"] "A film" "Director" [] None None
        = Return m
        /\ MediaContent.title (Movie.base m) = EmptyString.
Proof.
  eexists. split; [reflexivity|]. split; [reflexivity|].
  eexists. split; reflexivity.
Qed.

(** The title is set once: the two mutators of a record keep it. *)
Lemma add_view_title self :
  MediaContent.title (MediaContent.add_view self) = MediaContent.title self.
Proof. reflexivity. Qed.

Lemma add_rating_title rating self :
  MediaContent.title (fst (MediaContent.add_rating rating self))
  = MediaContent.title self.
Proof.
  unfold MediaContent.add_rating.
  destruct (MediaContent.accepted_rating rating); reflexivity.
Qed.

(** C8: [get_recently_added] raises NameError for every library and every
    number of days: [library.py] imports [datetime] and not [timedelta].
    The claim asks for the records created since the cutoff. *)
Theorem get_recently_added_raises :
  (forall h now self days,
      MediaLibrary.get_recently_added h now self days
      = Raise (NameError "name 'timedelta' is not defined"))
  /\ MediaLibrary.get_recently_added shelf 0
       (fst (MediaLibrary.add_content shelf 0%nat (MediaLibrary.init 0 "Home")))
       7
     = Raise (NameError "name 'timedelta' is not defined").
Proof. split; reflexivity. Qed.

(** ** Movies *)

Lemma truthy_float_iff (o : option Q) :
  truthy_float o = true <-> exists q, o = Some q /\ ~ (q == 0)%Q.
Proof.
  destruct o as [q|]; simpl.
  - rewrite negb_true_iff. split.
    + intros H. exists q. split; [reflexivity|].
      intros E. apply Qeq_bool_iff in E. congruence.
    + intros [q' [E H]]. injection E as <-.
      destruct (Qeq_bool q 0) eqn:B; [|reflexivity].
      apply Qeq_bool_iff in B. contradiction.
  - split; [discriminate|]. intros [q [E _]]. discriminate.
Qed.

(** C9, as the claim states it, fails: a movie with a budget of zero and a
    box office of 100 has both amounts, and 100 > 3 * 0, yet the flag is
    false. *)
Lemma blockbuster_zero_budget_counterexample :
  let m := sample_movie "Dune" (Some 0%Q) (Some 100%Q) in
  Movie.budget m = Some 0%Q
  /\ Movie.box_office m = Some 100%Q
  /\ (3 * 0 < 100)%Q
  /\ dict_get (Movie.get_metadata m) "is_blockbuster" = Some (MetaBool false).
Proof.
  cbv zeta. repeat split.
Qed.

(** C9, amended: the flag of the metadata is true if and only if budget and
    box office are both present, both different from zero, and the box
    office exceeds the float product of the budget by three, which is
    three times the budget rounded to the nearest float; it is false when
    either is absent. *)
Theorem blockbuster_flag (m : Movie.t) :
  exists flag,
    dict_get (Movie.get_metadata m) "is_blockbuster" = Some (MetaBool flag)
    /\ (flag = true <->
        exists budget box_office,
          Movie.budget m = Some budget
          /\ Movie.box_office m = Some box_office
          /\ ~ (budget == 0)%Q /\ ~ (box_office == 0)%Q
          /\ (Float.mul budget 3 < box_office)%Q)
    /\ (Movie.budget m = None \/ Movie.box_office m = None -> flag = false).
Proof.
  exists (Movie._is_blockbuster m). split; [reflexivity|].
  unfold Movie._is_blockbuster, Movie.budget, Movie.box_office.
  split.
  - split.
    + destruct (truthy_float (Movie._budget m)) eqn:Eb; cbn [andb];
        [|discriminate].
      destruct (truthy_float (Movie._box_office m)) eqn:Eo; [|discriminate].
      apply truthy_float_iff in Eb, Eo.
      destruct Eb as [b [-> Hb]], Eo as [o [-> Ho]].
      intros H. apply Qlt_bool_iff in H.
      exists b, o. repeat split; auto.
    + intros [b [o [Eb [Eo [Hb [Ho H]]]]]].
      rewrite Eb, Eo.
      assert (Tb : truthy_float (Some b) = true)
        by (apply truthy_float_iff; eauto).
      assert (To : truthy_float (Some o) = true)
        by (apply truthy_float_iff; eauto).
      rewrite Tb, To. cbn [andb]. now apply Qlt_bool_iff.
  - intros [E|E]; rewrite E; cbn [truthy_float andb]; [reflexivity|].
    now rewrite andb_false_r.
Qed.

Lemma blockbuster_flag_witness :
  dict_get (Movie.get_metadata (sample_movie "Dune" None (Some 100%Q)))
    "is_blockbuster" = Some (MetaBool false).
Proof.
  destruct (blockbuster_flag (sample_movie "Dune" None (Some 100%Q)))
    as [flag [E [_ H]]].
  rewrite E.
  rewrite (H (or_introl eq_refl)). reflexivity.
Defined.

(** The product is a float product: a budget of 0.1 and a box office of
    0.30000000000000004, which exceeds three times the budget, do not make
    a blockbuster, for [0.1 * 3] is 0.30000000000000004 itself. *)
Example blockbuster_rounding_example :
  let budget := Float.round (1 # 10) in
  let box_office := Float.round (30000000000000004 # 100000000000000000) in
  (3 * budget < box_office)%Q
  /\ (Float.mul budget 3 == box_office)%Q
  /\ Movie._is_blockbuster
       (sample_movie "Dune" (Some budget) (Some box_office)) = false.
Proof. vm_compute. repeat split; congruence. Qed.

Example slug_example : Movie.slug "The Matrix Reloaded" = "the-matrix-reloaded".
Proof. reflexivity. Qed.

(** C4: a movie cannot be streamed exactly while it counts as released in
    the last 90 days, that is while its release date is not before the
    clock minus 90 days; [get_streaming_url] raises NotAvailable (a
    ValueError) exactly when [can_stream] is false, and otherwise returns
    the address made of the lowered title with blanks turned to dashes. *)
Theorem movie_streaming_gate (now : Z) (m : Movie.t) :
  (Movie.can_stream now m = false
   <-> MediaContent.is_recently_released now (Movie.base m) 90 = true)
  /\ (MediaContent.is_recently_released now (Movie.base m) 90 = true
      <-> now - 90 * 86400000000
          <= MediaContent.release_date (Movie.base m))
  /\ (Movie.get_streaming_url now m
      = Raise (ValueError "Movie not available for streaming yet")
      <-> Movie.can_stream now m = false)
  /\ ((exists e, Movie.get_streaming_url now m = Raise e)
      <-> Movie.can_stream now m = false)
  /\ (Movie.can_stream now m = true
      <-> Movie.get_streaming_url now m
          = Return
              ("https://stream.example.com/movies/"
                 ++ Str.replace_char " "%char "-"%char
                      (Str.lower (MediaContent.title (Movie.base m))))%string).
Proof.
  unfold Movie.get_streaming_url, Movie.can_stream.
  split; [apply negb_false_iff|].
  split.
  { unfold MediaContent.is_recently_released, timedelta_days,
      microseconds_per_day, MediaContent.release_date.
    apply Z.leb_le. }
  destruct (MediaContent.is_recently_released now (Movie.base m) 90);
    simpl; repeat split; intros; try congruence.
  - eexists. reflexivity.
  - destruct H; congruence.
Qed.

Lemma movie_streaming_gate_witness :
  Movie.get_streaming_url (100 * 86400000000) (sample_movie "Dune" None None)
  = Return "https://stream.example.com/movies/dune"
  /\ Movie.get_streaming_url (10 * 86400000000) (sample_movie "Dune" None None)
     = Raise (ValueError "Movie not available for streaming yet").
Proof.
  split.
  - apply (movie_streaming_gate (100 * 86400000000)
             (sample_movie "Dune" None None)).
    reflexivity.
  - apply (movie_streaming_gate (10 * 86400000000)
             (sample_movie "Dune" None None)).
    reflexivity.
Defined.

(** ** The cast of a movie *)

Lemma filter_map_swap (A B : Type) (f : A -> B) (p : B -> bool) (l : list A) :
  filter p (map f l) = map f (filter (fun x => p (f x)) l).
Proof.
  induction l as [|x l IH]; simpl; [reflexivity|].
  destruct (p (f x)); simpl; congruence.
Qed.

(** C10: a movie whose other arguments are valid is constructed whatever
    its cast list holds, and the cast it stores is the list of the trimmed
    entries that are not empty, in the order of the input; no stored entry
    is empty. *)
Theorem movie_cast_drops_blank_entries now title duration_minutes release_date
    content_rating genres description director cast budget box_office :
  title <> EmptyString -> 0 < duration_minutes -> genres <> [] ->
  director <> EmptyString ->
  exists m,
    Movie.init now title duration_minutes release_date content_rating genres
      description director cast budget box_office = Return m
    /\ Movie.cast m
       = filter (fun actor => negb (String.eqb actor EmptyString))
           (map Str.strip cast)
    /\ Forall (fun actor => actor <> EmptyString) (Movie.cast m).
Proof.
  intros Ht Hd Hg Hdir. unfold Movie.init.
  rewrite MediaContent_init_ok by assumption. simpl.
  apply truthy_iff in Hdir. rewrite Hdir. simpl.
  eexists. split; [reflexivity|]. unfold Movie.cast. simpl.
  assert (E : forall s, Str.truthy s = negb (String.eqb s EmptyString))
    by (intros [|c s]; reflexivity).
  split.
  - rewrite filter_map_swap. f_equal. apply filter_ext. intros a. apply E.
  - apply Forall_forall. intros a Ha.
    apply in_map_iff in Ha. destruct Ha as [a0 [<- Ha0]].
    apply filter_In in Ha0. destruct Ha0 as [_ Ha0].
    now apply truthy_iff.
Qed.

Lemma movie_cast_drops_blank_entries_witness :
  exists m,
    Movie.init 0 "Dune" 120 0 PG_13 ["drama"] "A film" "Director"
      [" Ann "; EmptyString; "   "; "Bob"] None None = Return m
    /\ Movie.cast m = ["Ann"; "Bob"].
Proof.
  destruct (movie_cast_drops_blank_entries 0 (title := "Dune")
              (duration_minutes := 120) 0 PG_13 (genres := ["drama"])
              "A film" (director := "Director")
              [" Ann "; EmptyString; "   "; "Bob"] None None)
    as [m [E [C _]]]; try discriminate; try lia.
  exists m. split; [exact E|]. rewrite C. reflexivity.
Defined.

(** ** Ratings *)

Lemma accepted_rating_iff (v : pyval) (q : Q) :
  MediaContent.accepted_rating v = Some q <-> rating_in_range v q.
Proof.
  assert (R : forall x, (if Qle_bool 1 x && Qle_bool x 5 then Some x else None)
                        = Some q <-> x = q /\ (1 <= x)%Q /\ (x <= 5)%Q).
  { intros x. destruct (Qle_bool 1 x && Qle_bool x 5) eqn:E.
    - apply andb_true_iff in E. destruct E as [E1 E2].
      apply Qle_bool_iff in E1, E2. split.
      + intros [= <-]. auto.
      + intros [<- _]. reflexivity.
    - split; [discriminate|]. intros [_ [H1 H2]].
      apply Qle_bool_iff in H1, H2. rewrite H1, H2 in E. discriminate. }
  destruct v as [z|b|x| |n|s|]; simpl;
    try (split; [discriminate | intros H; inversion H]).
  - rewrite R. split.
    + intros [<- [H1 H2]]. constructor.
      change 1%Q with (inject_Z 1) in H1. change 5%Q with (inject_Z 5) in H2.
      rewrite <- Zle_Qle in H1, H2. lia.
    + intros H. inversion H; subst. split; [reflexivity|].
      change 1%Q with (inject_Z 1). change 5%Q with (inject_Z 5).
      rewrite <- !Zle_Qle. lia.
  - rewrite R. split.
    + intros [<- [H1 _]]. destruct b; [constructor|].
      exfalso. revert H1. compute. congruence.
    + intros H. inversion H; subst. repeat split; compute; congruence.
  - rewrite R. split.
    + intros [<- [H1 H2]]. now constructor.
    + intros H. inversion H; subst. auto.
Qed.




(** ** Adding to the library *)

Lemma contains_iff (l : list loc) (x : loc) :
  Py.contains l x = true <-> In x l.
Proof.
  unfold Py.contains. rewrite existsb_exists. split.
  - intros [y [Hy E]]. apply Nat.eqb_eq in E. now subst.
  - intros H. exists x. split; [assumption|]. apply Nat.eqb_refl.
Qed.

Lemma contains_false_iff (l : list loc) (x : loc) :
  Py.contains l x = false <-> ~ In x l.
Proof.
  rewrite <- contains_iff. destruct (Py.contains l x); split; congruence.
Qed.

(** C1, as the claim states it, fails: two records with the same title are
    two objects, and the second is added; the library then holds both. *)
Lemma add_content_same_title_counterexample :
  let first := MediaLibrary.add_content twins 0%nat (MediaLibrary.init 0 "Home") in
  let second := MediaLibrary.add_content twins 1%nat (fst first) in
  MediaContent.title (super (twins 0%nat)) = MediaContent.title (super (twins 1%nat))
  /\ snd first = Return tt
  /\ snd second = Return tt
  /\ MediaLibrary._content (fst second) = [0%nat; 1%nat]
  /\ MediaLibrary.total_content (fst second) = 2.
Proof.
  cbv zeta. repeat split.
Qed.

(** C1, amended: a record is equal to itself only.  If the record is
    already in the library, [add_content] raises Conflict (a ValueError)
    and returns the library as it was; otherwise it appends the record.
    So adding one record twice raises on the second add, and adding two
    records to a new library succeeds both times and brings
    [total_content] to 2, when their titles differ and also when two
    distinct records share a title. *)
Theorem add_content_conflict (h : heap) :
  (forall self content,
      In content (MediaLibrary._content self) ->
      MediaLibrary.add_content h content self
      = (self,
         Raise (ValueError
                  ("Content '" ++ MediaContent.title (super (h content))
                     ++ "' already exists in library")%string)))
  /\ (forall self content,
      ~ In content (MediaLibrary._content self) ->
      snd (MediaLibrary.add_content h content self) = Return tt
      /\ MediaLibrary._content (fst (MediaLibrary.add_content h content self))
         = MediaLibrary._content self ++ [content])
  /\ (forall now name content,
      let first := MediaLibrary.add_content h content (MediaLibrary.init now name) in
      snd first = Return tt
      /\ exists msg,
          MediaLibrary.add_content h content (fst first)
          = (fst first, Raise (ValueError msg)))
  /\ (forall now name c1 c2,
      c1 <> c2
      \/ MediaContent.title (super (h c1)) <> MediaContent.title (super (h c2)) ->
      let first := MediaLibrary.add_content h c1 (MediaLibrary.init now name) in
      let second := MediaLibrary.add_content h c2 (fst first) in
      snd first = Return tt
      /\ snd second = Return tt
      /\ MediaLibrary.total_content (fst second) = 2).
Proof.
  assert (Hin : forall self content,
             In content (MediaLibrary._content self) ->
             MediaLibrary.add_content h content self
             = (self,
                Raise (ValueError
                         ("Content '" ++ MediaContent.title (super (h content))
                            ++ "' already exists in library")%string))).
  { intros self content H. unfold MediaLibrary.add_content.
    apply contains_iff in H. now rewrite H. }
  assert (Hout : forall self content,
             ~ In content (MediaLibrary._content self) ->
             snd (MediaLibrary.add_content h content self) = Return tt
             /\ MediaLibrary._content
                  (fst (MediaLibrary.add_content h content self))
                = MediaLibrary._content self ++ [content]).
  { intros self content H. unfold MediaLibrary.add_content.
    apply contains_false_iff in H. rewrite H. simpl. auto. }
  split; [exact Hin|]. split; [exact Hout|]. split.
  - intros now name content first.
    destruct (Hout (MediaLibrary.init now name) content) as [E1 E2];
      [simpl; tauto|].
    split; [exact E1|]. eexists. apply Hin.
    subst first. rewrite E2. simpl. auto.
  - intros now name c1 c2 Hne first second.
    assert (Hd : c1 <> c2).
    { destruct Hne as [Hne|Hne]; [exact Hne|]. intros ->. now apply Hne. }
    destruct (Hout (MediaLibrary.init now name) c1) as [E1 E2];
      [simpl; tauto|].
    destruct (Hout (fst first) c2) as [E3 E4].
    { subst first. rewrite E2. simpl. intros [E|[]]. now apply Hd. }
    split; [exact E1|]. split; [exact E3|].
    unfold MediaLibrary.total_content. subst second. rewrite E4.
    subst first. rewrite E2. reflexivity.
Qed.

Lemma add_content_conflict_witness :
  let first := MediaLibrary.add_content twins 0%nat (MediaLibrary.init 0 "Home") in
  (exists msg,
      MediaLibrary.add_content twins 0%nat (fst first)
      = (fst first, Raise (ValueError msg)))
  /\ MediaLibrary.total_content
       (fst (MediaLibrary.add_content shelf 1%nat
               (fst (MediaLibrary.add_content shelf 0%nat
                       (MediaLibrary.init 0 "Home"))))) = 2.
Proof.
  cbv zeta. split.
  - eexists.
    apply (proj1 (add_content_conflict twins)
             (fst (MediaLibrary.add_content twins 0%nat
                     (MediaLibrary.init 0 "Home"))) 0%nat).
    simpl. auto.
  - apply (proj2 (proj2 (proj2 (add_content_conflict shelf))) 0 "Home"
             0%nat 1%nat).
    right. simpl. discriminate.
Defined.

(** ** Search *)

Lemma is_recently_released_in_range now self d :
  Z.abs d <= timedelta_max_days ->
  datetime_min <= now - timedelta_days d <= datetime_max ->
  Raising.is_recently_released now self d
  = Return (MediaContent.is_recently_released now self d).
Proof.
  intros Hd Hr. unfold Raising.is_recently_released, Raising.timedelta,
    Raising.datetime_sub.
  destruct (Z.leb_spec (Z.abs d) timedelta_max_days); [|lia].
  cbn [bind].
  destruct (Z.leb_spec datetime_min (now - timedelta_days d)); [|lia].
  destruct (Z.leb_spec (now - timedelta_days d) datetime_max); [|lia].
  reflexivity.
Qed.

Lemma is_recently_released_returns_or_overflows now self d :
  Raising.is_recently_released now self d
  = Return (MediaContent.is_recently_released now self d)
  \/ Raising.is_recently_released now self d = Raise OverflowError.
Proof.
  unfold Raising.is_recently_released, Raising.timedelta,
    Raising.datetime_sub.
  destruct (Z.abs d <=? timedelta_max_days); cbn [bind]; [|now right].
  destruct ((datetime_min <=? now - timedelta_days d)
            && (now - timedelta_days d <=? datetime_max));
    cbn [bind]; [now left|now right].
Qed.

Ltac five_clauses f o :=
  unfold Raising.matches, SearchFilter.matches;
  set (c1 := SearchFilter.nonempty (SearchFilter.genres f) && _);
  set (c2 := SearchFilter.nonempty (SearchFilter.media_types f) && _);
  set (c3 := SearchFilter.nonempty (SearchFilter.content_ratings f) && _);
  set (c4 := truthy_float (SearchFilter.min_rating f) && _);
  set (c5 := truthy_int (SearchFilter.max_duration f) && _).

Lemma raising_matches_returns_or_overflows now f o :
  Raising.matches now f o = Return (SearchFilter.matches now f o)
  \/ Raising.matches now f o = Raise OverflowError.
Proof.
  five_clauses f o.
  destruct c1; [now left|]. destruct c2; [now left|].
  destruct c3; [now left|]. destruct c4; [now left|].
  destruct c5; [now left|].
  destruct (SearchFilter.recently_released_days f) as [d|]; [|now left].
  cbn [truthy_int]. destruct (negb (d =? 0)); cbn [andb]; [|now left].
  destruct (is_recently_released_returns_or_overflows now (super o) d)
    as [E|E]; rewrite E; cbn [bind]; [left|now right].
  now destruct (MediaContent.is_recently_released now (super o) d).
Qed.

Lemma raising_matches_value now f o b :
  Raising.matches now f o = Return b -> SearchFilter.matches now f o = b.
Proof.
  destruct (raising_matches_returns_or_overflows now f o) as [E|E];
    rewrite E; congruence.
Qed.

Lemma raising_matches_in_range now f o :
  days_in_range now f ->
  Raising.matches now f o = Return (SearchFilter.matches now f o).
Proof.
  intros Hr. unfold days_in_range in Hr. five_clauses f o.
  destruct c1; [reflexivity|]. destruct c2; [reflexivity|].
  destruct c3; [reflexivity|]. destruct c4; [reflexivity|].
  destruct c5; [reflexivity|].
  destruct (SearchFilter.recently_released_days f) as [d|]; [|reflexivity].
  cbn [truthy_int].
  destruct (Z.eqb_spec d 0) as [->|Hd]; cbn [negb andb]; [reflexivity|].
  destruct Hr as [Hr|[Hr1 Hr2]]; [contradiction|].
  rewrite (@is_recently_released_in_range now (super o) d Hr1 Hr2).
  cbn [bind].
  now destruct (MediaContent.is_recently_released now (super o) d).
Qed.

(** The test that [search] makes of one record, as a value. *)
Lemma search_loop_returns_or_overflows h now query filters l :
  forall results,
    Raising.search_loop h now query filters l results
    = Return
        (results
           ++ MediaLibrary.search h now
                (MediaLibrary.mk EmptyString l (fun _ => []) 0 0)
                query filters)
    \/ Raising.search_loop h now query filters l results
       = Raise OverflowError.
Proof.
  unfold MediaLibrary.search. cbn [MediaLibrary._content].
  induction l as [|c l IH]; intros results; cbn [Raising.search_loop filter].
  - left. now rewrite app_nil_r.
  - destruct (Str.truthy query
              && negb (MediaContent.matches_search (super (h c)) query));
      [apply IH|].
    destruct filters as [f|].
    + destruct (raising_matches_returns_or_overflows now f (h c)) as [E|E];
        rewrite E; cbn [bind]; [|now right].
      destruct (SearchFilter.matches now f (h c)); cbn [negb].
      * destruct (IH (results ++ [c])) as [E'|E']; rewrite E';
          [left|now right].
        now rewrite <- app_assoc.
      * apply IH.
    + destruct (IH (results ++ [c])) as [E'|E']; rewrite E';
        [left|now right].
      now rewrite <- app_assoc.
Qed.

Lemma search_loop_in_range h now query filters l :
  (forall f, filters = Some f -> days_in_range now f) ->
  forall results,
    Raising.search_loop h now query filters l results
    = Return
        (results
           ++ MediaLibrary.search h now
                (MediaLibrary.mk EmptyString l (fun _ => []) 0 0)
                query filters).
Proof.
  intros Hr. unfold MediaLibrary.search. cbn [MediaLibrary._content].
  induction l as [|c l IH]; intros results; cbn [Raising.search_loop filter].
  - now rewrite app_nil_r.
  - destruct (Str.truthy query
              && negb (MediaContent.matches_search (super (h c)) query));
      [apply IH|].
    destruct filters as [f|].
    + rewrite (@raising_matches_in_range now f (h c) (Hr f eq_refl)). cbn [bind].
      destruct (SearchFilter.matches now f (h c)); cbn [negb]; [|apply IH].
      rewrite IH. now rewrite <- app_assoc.
    + rewrite IH. now rewrite <- app_assoc.
Qed.

(** C2, as the claim states it, fails: with a filter whose
    [recently_released_days] is 1000000000, which no [timedelta] holds,
    [matches] raises OverflowError on the record of the library and so
    does [search]; no list is returned. *)
Lemma search_overflow_counterexample :
  let self :=
    fst (MediaLibrary.add_content mixed 0%nat (MediaLibrary.init 0 "Home")) in
  MediaLibrary._content self = [0%nat]
  /\ Raising.matches 0 far_filter (mixed 0%nat) = Raise OverflowError
  /\ Raising.search mixed 0 self EmptyString (Some far_filter)
     = Raise OverflowError.
Proof. cbv zeta. repeat split. Qed.

(** C2, amended: when the filter is absent, or its
    [recently_released_days] is [None] or zero or a number of days whose
    cutoff is a [datetime], [search] returns the records of the library
    that satisfy (query empty or [matches_search]) and (no filter or
    [filter.matches]), in the order of insertion; with the empty query and
    the filter that [set_rating_filter(4.0)] makes, these are the records
    whose average rating is at least 4.0.  With any other filter [search]
    returns that list or raises OverflowError. *)
Theorem search_spec :
  (forall h now self query filters,
      (forall f, filters = Some f -> days_in_range now f) ->
      exists keep,
        (forall c, keep c = true <-> search_condition h now query filters c)
        /\ Raising.search h now self query filters
           = Return (filter keep (MediaLibrary._content self)))
  /\ (exists f,
         SearchFilter.set_rating_filter 4 SearchFilter.init = Return f
         /\ forall h now self,
             Raising.search h now self EmptyString (Some f)
             = Return
                 (filter
                    (fun c =>
                       Qle_bool 4 (MediaContent.average_rating (super (h c))))
                    (MediaLibrary._content self)))
  /\ (forall h now self query filters,
         Raising.search h now self query filters
         = Return (MediaLibrary.search h now self query filters)
         \/ Raising.search h now self query filters = Raise OverflowError).
Proof.
  split; [|split].
  - intros h now self query filters Hr.
    eexists. split;
      [|unfold Raising.search;
        rewrite (@search_loop_in_range h now query filters
                   (MediaLibrary._content self) Hr []);
        unfold MediaLibrary.search; cbn [MediaLibrary._content app];
        reflexivity].
    intros c. unfold search_condition. cbv beta.
    assert (Hq : Str.truthy query
                 && negb (MediaContent.matches_search (super (h c)) query)
                 = false
                 <-> query = EmptyString
                     \/ MediaContent.matches_search (super (h c)) query = true).
    { destruct (Str.truthy query) eqn:Eq.
      - apply truthy_iff in Eq. cbn [andb]. rewrite negb_false_iff. tauto.
      - apply truthy_false_iff in Eq. cbn [andb]. tauto. }
    assert (Hf : match filters with
                 | Some f => negb (SearchFilter.matches now f (h c))
                 | None => false
                 end = false
                 <-> filters = None
                     \/ exists f,
                         filters = Some f
                         /\ Raising.matches now f (h c) = Return true).
    { destruct filters as [f|].
      - rewrite negb_false_iff. split.
        + intros E. right. exists f. split; [reflexivity|].
          rewrite (@raising_matches_in_range now f (h c) (Hr f eq_refl)).
          now rewrite E.
        + intros [E|[f' [[= <-] E]]]; [discriminate|].
          now apply raising_matches_value in E.
      - split; [now left|reflexivity]. }
    rewrite <- Hq, <- Hf.
    destruct (Str.truthy query
              && negb (MediaContent.matches_search (super (h c)) query));
      [intuition congruence|].
    destruct (match filters with
              | Some f => negb (SearchFilter.matches now f (h c))
              | None => false
              end); intuition congruence.
  - eexists. split; [reflexivity|]. intros h now self.
    unfold Raising.search. rewrite search_loop_in_range.
    + unfold MediaLibrary.search. cbn [MediaLibrary._content app].
      f_equal. apply filter_ext. intros c.
      unfold SearchFilter.matches, Qlt_bool. simpl.
      now destruct (Qle_bool 4 (MediaContent.average_rating (super (h c)))).
    + intros f [= <-]. exact I.
  - intros h now self query filters. unfold Raising.search.
    destruct (search_loop_returns_or_overflows h now query filters
                (MediaLibrary._content self) []) as [E|E];
      [left|now right].
    rewrite E. reflexivity.
Qed.

Lemma search_spec_witness :
  let s := run (shelf, MediaLibrary.init 0 "Home")
             [AddContent 0%nat; AddContent 1%nat; AddContent 2%nat;
              AddContent 3%nat] in
  exists keep,
    Raising.search (fst s) 0 (snd s) "b"
      (Some (SearchFilter.mk [] [MOVIE] [] None None (Some 30)))
    = Return (filter keep [0%nat; 1%nat; 2%nat; 3%nat]).
Proof.
  intros s.
  destruct (proj1 search_spec (fst s) 0 (snd s) "b"
              (Some (SearchFilter.mk [] [MOVIE] [] None None (Some 30))))
    as [keep [_ E]].
  - intros f [= <-]. right. unfold timedelta_max_days, datetime_min,
      datetime_max, timedelta_days, microseconds_per_day. simpl. lia.
  - exists keep. exact E.
Defined.

(** ** The kind index *)

Lemma MediaType_eqb_eq (a b : MediaType) : MediaType_eqb a b = true <-> a = b.
Proof. destruct a, b; simpl; split; congruence. Qed.

Lemma MediaType_eqb_refl (a : MediaType) : MediaType_eqb a a = true.
Proof. now apply MediaType_eqb_eq. Qed.

Lemma MediaType_eqb_neq (a b : MediaType) : MediaType_eqb a b = false <-> a <> b.
Proof. destruct a, b; simpl; split; congruence. Qed.

Lemma remove_first (before after : list loc) (x : loc) :
  ~ In x before ->
  Py.remove (before ++ x :: after) x = Return (before ++ after).
Proof.
  induction before as [|y before IH]; simpl; intros H.
  - now rewrite Nat.eqb_refl.
  - destruct (Nat.eqb_spec y x) as [->|_]; [tauto|].
    rewrite IH by tauto. reflexivity.
Qed.

Lemma find_first (A : Type) (p : A -> bool) (l : list A) :
  match find p l with
  | Some x =>
      exists before after,
        l = before ++ x :: after
        /\ p x = true
        /\ forall y, In y before -> p y = false
  | None => forall y, In y l -> p y = false
  end.
Proof.
  induction l as [|y l IH]; simpl.
  - tauto.
  - destruct (p y) eqn:E.
    + exists [], l. simpl. tauto.
    + destruct (find p l) as [x|].
      * destruct IH as [before [after [-> [Hx Hb]]]].
        exists (y :: before), after. simpl. repeat split; auto.
        intros z [<-|Hz]; auto.
      * intros z [<-|Hz]; auto.
Qed.

Lemma find_at (A : Type) (p : A -> bool) (before after : list A) (x : A) :
  (forall y, In y before -> p y = false) -> p x = true ->
  find p (before ++ x :: after) = Some x.
Proof.
  induction before as [|y before IH]; simpl; intros Hb Hx.
  - now rewrite Hx.
  - rewrite (Hb y) by auto. apply IH; auto.
Qed.

Lemma of_kind_app h k l1 l2 :
  of_kind h k (l1 ++ l2) = of_kind h k l1 ++ of_kind h k l2.
Proof. apply filter_app. Qed.

Lemma of_kind_In h k l c : In c (of_kind h k l) -> In c l.
Proof. intros H. now apply filter_In in H. Qed.

Lemma in_sync_at h self k :
  in_sync (h, self) ->
  MediaLibrary._content_by_type self k
  = of_kind h k (MediaLibrary._content self).
Proof. intros H. exact (H k). Qed.

Lemma add_content_in_sync h c self :
  in_sync (h, self) -> in_sync (h, fst (MediaLibrary.add_content h c self)).
Proof.
  intros H k. unfold MediaLibrary.add_content.
  destruct (Py.contains (MediaLibrary._content self) c); [apply H|].
  simpl. unfold MediaLibrary.setitem. rewrite of_kind_app.
  apply in_sync_at with (k := k) in H. unfold of_kind at 2. simpl.
  destruct (MediaType_eqb k (get_media_type (h c))) eqn:E.
  - apply MediaType_eqb_eq in E. subst k.
    rewrite MediaType_eqb_refl. now rewrite H.
  - apply MediaType_eqb_neq in E.
    destruct (MediaType_eqb (get_media_type (h c)) k) eqn:E'.
    + apply MediaType_eqb_eq in E'. congruence.
    + now rewrite app_nil_r.
Qed.

(** What [remove_content] does at the first record whose title matches. *)
Lemma remove_content_at h title self before c after :
  in_sync (h, self) ->
  MediaLibrary._content self = before ++ c :: after ->
  (forall c', In c' before -> MediaLibrary.title_matches h title c' = false) ->
  MediaLibrary.title_matches h title c = true ->
  exists self',
    MediaLibrary.remove_content h title self = (self', Return true)
    /\ MediaLibrary._content self' = before ++ after
    /\ in_sync (h, self')
    /\ MediaLibrary._content_by_type self (get_media_type (h c))
       = of_kind h (get_media_type (h c)) before
           ++ c :: of_kind h (get_media_type (h c)) after
    /\ MediaLibrary._content_by_type self' (get_media_type (h c))
       = of_kind h (get_media_type (h c)) before
           ++ of_kind h (get_media_type (h c)) after.
Proof.
  intros Hs Hc Hb Hm.
  assert (Hnin : ~ In c before).
  { intros Hin. apply Hb in Hin. congruence. }
  assert (Hidx : MediaLibrary._content_by_type self (get_media_type (h c))
                 = of_kind h (get_media_type (h c)) before
                     ++ c :: of_kind h (get_media_type (h c)) after).
  { rewrite (in_sync_at _ Hs). rewrite Hc, of_kind_app.
    unfold of_kind at 2. simpl. now rewrite MediaType_eqb_refl. }
  unfold MediaLibrary.remove_content.
  rewrite Hc, (@find_at _ _ before after c Hb Hm), (@remove_first before after c Hnin), Hidx.
  rewrite remove_first by (intros Hin; apply of_kind_In in Hin; tauto).
  eexists. split; [reflexivity|]. simpl. split; [reflexivity|]. split.
  - intros k. simpl. unfold MediaLibrary.setitem. rewrite of_kind_app.
    destruct (MediaType_eqb k (get_media_type (h c))) eqn:E.
    + apply MediaType_eqb_eq in E. now subst k.
    + rewrite (in_sync_at k Hs). rewrite Hc, of_kind_app.
      unfold of_kind at 2. simpl.
      destruct (MediaType_eqb (get_media_type (h c)) k) eqn:E';
        [|reflexivity].
      apply MediaType_eqb_eq in E'. apply MediaType_eqb_neq in E. congruence.
  - split; [reflexivity|].
    unfold MediaLibrary.setitem. now rewrite MediaType_eqb_refl.
Qed.

Lemma remove_content_in_sync h title self :
  in_sync (h, self) ->
  in_sync (h, fst (MediaLibrary.remove_content h title self)).
Proof.
  intros Hs.
  pose proof (find_first (MediaLibrary.title_matches h title)
                (MediaLibrary._content self)) as Hf.
  destruct (find (MediaLibrary.title_matches h title)
              (MediaLibrary._content self)) as [c|] eqn:E.
  - destruct Hf as [before [after [Hc [Hm Hb]]]].
    destruct (@remove_content_at h title self before c after Hs Hc Hb Hm)
      as [self' [-> [_ [H _]]]].
    exact H.
  - unfold MediaLibrary.remove_content. rewrite E. exact Hs.
Qed.

Lemma get_media_type_with_super o b :
  get_media_type (with_super o b) = get_media_type o.
Proof. now destruct o. Qed.

Lemma update_in_sync h c b self :
  in_sync (h, self) -> in_sync (update h c (with_super (h c) b), self).
Proof.
  intros Hs k. simpl. rewrite (in_sync_at k Hs). apply filter_ext. intros c'.
  unfold update. destruct (Nat.eqb_spec c' c) as [->|_]; [|reflexivity].
  now rewrite get_media_type_with_super.
Qed.

Lemma step_in_sync s o : in_sync s -> in_sync (step s o).
Proof.
  destruct s as [h self]. intros Hs. destruct o as [c|title|c|c rating]; simpl.
  - now apply add_content_in_sync.
  - now apply remove_content_in_sync.
  - now apply update_in_sync.
  - unfold add_rating.
    destruct (MediaContent.add_rating rating (super (h c))) as [b r]. simpl.
    now apply update_in_sync.
Qed.

Lemma run_in_sync ops : forall s, in_sync s -> in_sync (run s ops).
Proof.
  induction ops as [|o ops IH]; intros s Hs; simpl; [exact Hs|].
  apply IH. now apply step_in_sync.
Qed.

Lemma reachable_in_sync s : reachable s -> in_sync s.
Proof.
  intros [h0 [now [name [ops ->]]]]. apply run_in_sync.
  intros k. reflexivity.
Qed.

(** C7: in every state that a new library reaches by adding and removing
    records, while the records themselves are viewed and rated, the index
    entry of each kind is the subsequence of the collection made of the
    records of that kind.  [remove_content] returns false and changes
    nothing when no title matches without regard to case; otherwise it
    returns true and takes the first record whose title matches out of the
    collection and out of the index entry of its kind. *)
Theorem kind_index_in_sync (h : heap) (self : MediaLibrary.t) :
  reachable (h, self) ->
  (forall k,
      MediaLibrary._content_by_type self k
      = of_kind h k (MediaLibrary._content self))
  /\ (forall title,
      (forall c, In c (MediaLibrary._content self) ->
                 MediaLibrary.title_matches h title c = false) ->
      MediaLibrary.remove_content h title self = (self, Return false))
  /\ (forall title before c after,
      MediaLibrary._content self = before ++ c :: after ->
      (forall c', In c' before ->
                  MediaLibrary.title_matches h title c' = false) ->
      MediaLibrary.title_matches h title c = true ->
      exists self',
        MediaLibrary.remove_content h title self = (self', Return true)
        /\ MediaLibrary._content self' = before ++ after
        /\ (forall k,
               MediaLibrary._content_by_type self' k
               = of_kind h k (before ++ after))
        /\ MediaLibrary._content_by_type self (get_media_type (h c))
           = of_kind h (get_media_type (h c)) before
               ++ c :: of_kind h (get_media_type (h c)) after
        /\ MediaLibrary._content_by_type self' (get_media_type (h c))
           = of_kind h (get_media_type (h c)) before
               ++ of_kind h (get_media_type (h c)) after).
Proof.
  intros Hr. apply reachable_in_sync in Hr.
  split; [intros k; now apply in_sync_at|]. split.
  - intros title Hnone. unfold MediaLibrary.remove_content.
    destruct (find (MediaLibrary.title_matches h title)
                (MediaLibrary._content self)) as [c|] eqn:E; [|reflexivity].
    apply find_some in E. destruct E as [Hin Hm].
    rewrite (Hnone c Hin) in Hm. discriminate.
  - intros title before c after Hc Hb Hm.
    destruct (@remove_content_at h title self before c after Hr Hc Hb Hm)
      as [self' [E [Hc' [Hs' [Hi Hi']]]]].
    exists self'. repeat split; try assumption.
    intros k. rewrite (in_sync_at k Hs'). now rewrite Hc'.
Qed.

Lemma kind_index_in_sync_witness :
  let s := run (mixed, MediaLibrary.init 0 "Home")
             [AddContent 0%nat; AddContent 1%nat; AddRating 1%nat (PyInt 5);
              AddContent 2%nat] in
  MediaLibrary._content_by_type (snd s) MOVIE = [0%nat; 2%nat]
  /\ MediaLibrary._content_by_type (snd s) TV_SHOW = [1%nat]
  /\ exists self',
      MediaLibrary.remove_content (fst s) "alien" (snd s) = (self', Return true)
      /\ MediaLibrary._content self' = [1%nat; 2%nat]
      /\ MediaLibrary._content_by_type self' MOVIE = [2%nat].
Proof.
  intros s.
  assert (Hr : reachable (fst s, snd s)).
  { exists mixed, 0, "Home",
      [AddContent 0%nat; AddContent 1%nat; AddRating 1%nat (PyInt 5);
       AddContent 2%nat].
    reflexivity. }
  destruct (kind_index_in_sync Hr) as [Hk [_ Hrm]].
  split; [rewrite Hk; reflexivity|].
  split; [rewrite Hk; reflexivity|].
  destruct (Hrm "alien" [] 0%nat [1%nat; 2%nat]) as [self' [E [Hc [_ [_ Hi]]]]].
  - reflexivity.
  - intros c' [].
  - reflexivity.
  - exists self'. split; [exact E|]. split; [exact Hc|]. exact Hi.
Defined.

(** ** Sorting *)

Section StableSort.

Variable A : Type.
Variable lt : A -> A -> bool.

(** [x] may stand before [y] when [y] is not less than [x]. *)
Hypothesis lt_asym : forall x y, lt x y = true -> lt y x = false.
Hypothesis not_lt_trans :
  forall x y z, lt y x = false -> lt z y = false -> lt z x = false.

Lemma insert_perm (x : A) (l : list A) :
  Permutation (Py.insert lt x l) (x :: l).
Proof.
  induction l as [|y l IH]; simpl; [reflexivity|].
  destruct (lt y x); [|reflexivity].
  rewrite IH. apply perm_swap.
Qed.

Lemma stable_sort_perm (l : list A) : Permutation (Py.stable_sort lt l) l.
Proof.
  induction l as [|x l IH]; simpl; [reflexivity|].
  rewrite insert_perm. now constructor.
Qed.

Lemma insert_sorted (x : A) (l : list A) :
  StronglySorted (fun x y => lt y x = false) l ->
  StronglySorted (fun x y => lt y x = false) (Py.insert lt x l).
Proof.
  induction l as [|y l IH]; simpl; intros Hs.
  - repeat constructor.
  - inversion Hs as [|? ? Hl Hy]; subst.
    destruct (lt y x) eqn:E.
    + constructor; [now apply IH|].
      rewrite insert_perm.
      constructor; [|exact Hy]. now apply lt_asym.
    + constructor; [exact Hs|]. constructor; [exact E|].
      revert Hy. apply Forall_impl. intros z Hz.
      now apply not_lt_trans with y.
Qed.

Lemma stable_sort_sorted (l : list A) :
  StronglySorted (fun x y => lt y x = false) (Py.stable_sort lt l).
Proof.
  induction l as [|x l IH]; simpl; [constructor|].
  now apply insert_sorted.
Qed.

(** A class of items none of which is less than another keeps its
    order. *)
Variable tie : A -> bool.
Hypothesis tie_not_lt :
  forall x y, tie x = true -> tie y = true -> lt y x = false.

Lemma insert_stable (x : A) (l : list A) :
  filter tie (Py.insert lt x l) = filter tie (x :: l).
Proof.
  induction l as [|y l IH]; simpl; [reflexivity|].
  destruct (lt y x) eqn:E; [|reflexivity].
  simpl. rewrite IH. simpl.
  destruct (tie y) eqn:Ty; [|reflexivity].
  destruct (tie x) eqn:Tx; [|reflexivity].
  rewrite (tie_not_lt Tx Ty) in E. discriminate.
Qed.

Lemma stable_sort_stable (l : list A) :
  filter tie (Py.stable_sort lt l) = filter tie l.
Proof.
  induction l as [|x l IH]; simpl; [reflexivity|].
  rewrite insert_stable. simpl. now rewrite IH.
Qed.

End StableSort.

Lemma StronglySorted_weaken (A : Type) (R R' : A -> A -> Prop) (l : list A) :
  (forall x y, R x y -> R' x y) -> StronglySorted R l -> StronglySorted R' l.
Proof.
  intros HR. induction 1 as [|x l Hs IH Hx]; constructor; [exact IH|].
  revert Hx. apply Forall_impl. apply HR.
Qed.

Lemma slice_to_firstn (A : Type) (l : list A) (stop : Z) :
  0 <= stop -> Py.slice_to l stop = firstn (Z.to_nat stop) l.
Proof.
  intros H. unfold Py.slice_to.
  destruct (Z.ltb_spec stop 0); [lia|].
  destruct (Z.le_gt_cases stop (Z.of_nat (List.length l))).
  - now rewrite Z.min_l.
  - rewrite Z.min_r by lia. rewrite Nat2Z.id.
    rewrite firstn_all. symmetry. apply firstn_all2. lia.
Qed.

Lemma slice_to_negative (A : Type) (l : list A) (stop : Z) :
  stop < 0 ->
  Py.slice_to l stop = firstn (List.length l - Z.to_nat (- stop)) l.
Proof.
  intros H. unfold Py.slice_to.
  destruct (Z.ltb_spec stop 0); [|lia].
  f_equal. lia.
Qed.

(** C5, as the claim states it, fails for a negative limit: on the four
    records rated 3.0, 5.0, 4.0 and not at all, the ranking is the
    second, the third, the first, and [get_top_rated(-1)] is not its
    first -1 records, which are none, but the ranking without its last
    record. *)
Lemma get_top_rated_negative_limit_counterexample :
  let self :=
    snd (run (shelf, MediaLibrary.init 0 "Home")
           [AddContent 0%nat; AddContent 1%nat; AddContent 2%nat;
            AddContent 3%nat]) in
  MediaLibrary.get_top_rated shelf self 4 = [1%nat; 2%nat; 0%nat]
  /\ MediaLibrary.get_top_rated shelf self (-1) = [1%nat; 2%nat]
  /\ MediaLibrary.get_top_rated shelf self (-1)
     <> firstn (Z.to_nat (-1)) (MediaLibrary.get_top_rated shelf self 4).
Proof.
  cbv zeta. split; [reflexivity|]. split; [reflexivity|].
  vm_compute. discriminate.
Qed.

(** C5, amended: the records whose average rating is positive have a
    ranking, which holds exactly those records, in which the averages
    never increase and the records of one average stand in the order of
    the collection.  For a limit that is not negative [get_top_rated]
    returns the first [limit] records of the ranking; for a negative
    limit it returns the ranking without its last [- limit] records, as a
    Python slice does.  On four records with averages 3.0, 5.0, 4.0 and
    none, [get_top_rated(2)] is the second then the third. *)
Theorem get_top_rated_spec (h : heap) (self : MediaLibrary.t) :
  let average := fun c => MediaContent.average_rating (super (h c)) in
  let rated :=
    filter (fun c => Qlt_bool 0 (average c)) (MediaLibrary._content self) in
  (exists ranking,
      Permutation ranking rated
      /\ (forall c, In c ranking <->
                    In c (MediaLibrary._content self) /\ (0 < average c)%Q)
      /\ StronglySorted (fun x y => (average y <= average x)%Q) ranking
      /\ (forall q,
             filter (fun c => Qeq_bool (average c) q) ranking
             = filter (fun c => Qeq_bool (average c) q) rated)
      /\ (forall limit,
             0 <= limit ->
             MediaLibrary.get_top_rated h self limit
             = firstn (Z.to_nat limit) ranking)
      /\ (forall limit,
             limit < 0 ->
             MediaLibrary.get_top_rated h self limit
             = firstn (List.length ranking - Z.to_nat (- limit)) ranking))
  /\ (forall a b c d,
         MediaLibrary._content self = [a; b; c; d] ->
         (average a == 3)%Q -> (average b == 5)%Q -> (average c == 4)%Q ->
         (average d == 0)%Q ->
         MediaLibrary.get_top_rated h self 2 = [b; c]).
Proof.
  intros average rated. split.
  - exists (Py.sorted rated average true).
    assert (Hp : Permutation (Py.sorted rated average true) rated)
      by apply stable_sort_perm.
    split; [exact Hp|]. split.
    { intros c. split.
      - intros Hin. apply (Permutation_in _ Hp) in Hin.
        apply filter_In in Hin. destruct Hin as [Hin Hc].
        split; [exact Hin|]. now apply Qlt_bool_iff.
      - intros [Hin Hc]. apply (Permutation_in _ (Permutation_sym Hp)).
        apply filter_In. split; [exact Hin|]. now apply Qlt_bool_iff. }
    split; [|split; [|split]].
    + unfold Py.sorted.
      eapply StronglySorted_weaken; [|apply stable_sort_sorted].
      * intros x y Hxy. cbv beta iota in Hxy.
        now apply Qlt_bool_false_iff in Hxy.
      * intros x y Hxy. apply Qlt_bool_iff in Hxy. apply Qlt_bool_false_iff.
        now apply Qlt_le_weak.
      * intros x y z Hxy Hyz. apply Qlt_bool_false_iff in Hxy, Hyz.
        apply Qlt_bool_false_iff. now apply Qle_trans with (average y).
    + intros q. unfold Py.sorted. apply stable_sort_stable.
      intros x y Hx Hy. apply Qeq_bool_iff in Hx, Hy.
      apply Qlt_bool_false_iff. rewrite Hx, Hy. apply Qle_refl.
    + intros limit Hl. now apply slice_to_firstn.
    + intros limit Hl. now apply slice_to_negative.
  - intros a b c d Hc Ha Hb Hcc Hd.
    unfold MediaLibrary.get_top_rated. rewrite Hc.
    clear rated. subst average. cbv beta in Ha, Hb, Hcc, Hd.
    set (avg := fun x : loc => MediaContent.average_rating (super (h x))).
    change (avg a == 3)%Q in Ha. change (avg b == 5)%Q in Hb.
    change (avg c == 4)%Q in Hcc. change (avg d == 0)%Q in Hd.
    assert (Fa : Qlt_bool 0 (avg a) = true)
      by (apply Qlt_bool_iff; rewrite Ha; reflexivity).
    assert (Fb : Qlt_bool 0 (avg b) = true)
      by (apply Qlt_bool_iff; rewrite Hb; reflexivity).
    assert (Fc : Qlt_bool 0 (avg c) = true)
      by (apply Qlt_bool_iff; rewrite Hcc; reflexivity).
    assert (Fd : Qlt_bool 0 (avg d) = false)
      by (apply Qlt_bool_false_iff; rewrite Hd; apply Qle_refl).
    assert (Lbc : Qlt_bool (avg b) (avg c) = false)
      by (apply Qlt_bool_false_iff; rewrite Hb, Hcc; discriminate).
    assert (Lab : Qlt_bool (avg a) (avg b) = true)
      by (apply Qlt_bool_iff; rewrite Ha, Hb; reflexivity).
    assert (Lac : Qlt_bool (avg a) (avg c) = true)
      by (apply Qlt_bool_iff; rewrite Ha, Hcc; reflexivity).
    change (Py.slice_to
              (Py.sorted (filter (fun x => Qlt_bool 0 (avg x)) [a; b; c; d])
                 avg true) 2 = [b; c]).
    cbn [filter]. rewrite Fa, Fb, Fc, Fd.
    unfold Py.sorted. cbn [Py.stable_sort Py.insert].
    rewrite Lbc. cbn [Py.insert]. rewrite Lab. cbn [Py.insert].
    rewrite Lac. reflexivity.
Qed.

Lemma get_top_rated_spec_witness :
  let self :=
    snd (run (shelf, MediaLibrary.init 0 "Home")
           [AddContent 0%nat; AddContent 1%nat; AddContent 2%nat;
            AddContent 3%nat]) in
  MediaLibrary.get_top_rated shelf self 2 = [1%nat; 2%nat]
  /\ exists ranking,
      MediaLibrary.get_top_rated shelf self 1 = firstn 1 ranking
      /\ MediaLibrary.get_top_rated shelf self (-2)
         = firstn (List.length ranking - 2) ranking
      /\ Permutation ranking [0%nat; 1%nat; 2%nat].
Proof.
  intros self.
  destruct (get_top_rated_spec shelf self) as [Hrank Hshelf].
  split.
  - apply (Hshelf 0%nat 1%nat 2%nat 3%nat); vm_compute; reflexivity.
  - destruct Hrank as [ranking [Hp [_ [_ [_ [Hpos Hneg]]]]]].
    exists ranking. split; [apply (Hpos 1); lia|].
    split; [apply (Hneg (-2)); lia|exact Hp].
Defined.

(** A negative limit counts from the end, as every Python slice does. *)
Example get_top_rated_negative_limit :
  MediaLibrary.get_top_rated shelf
    (snd (run (shelf, MediaLibrary.init 0 "Home")
            [AddContent 0%nat; AddContent 1%nat; AddContent 2%nat;
             AddContent 3%nat]))
    (-1)
  = [1%nat; 2%nat].
Proof. reflexivity. Qed.

(** ** Trimming and lowering *)

Lemma isspace_lower_char (c : ascii) :
  Str.isspace (Str.lower_char c) = Str.isspace c.
Proof. destruct c as [[] [] [] [] [] [] [] []]; reflexivity. Qed.

Lemma lower_char_idem (c : ascii) :
  Str.lower_char (Str.lower_char c) = Str.lower_char c.
Proof. destruct c as [[] [] [] [] [] [] [] []]; reflexivity. Qed.

Lemma lower_idem (s : string) : Str.lower (Str.lower s) = Str.lower s.
Proof.
  induction s as [|c s IH]; simpl; [reflexivity|].
  now rewrite lower_char_idem, IH.
Qed.

Lemma lower_lstrip (s : string) :
  Str.lower (Str.lstrip s) = Str.lstrip (Str.lower s).
Proof.
  induction s as [|c s IH]; simpl; [reflexivity|].
  rewrite isspace_lower_char. now destruct (Str.isspace c).
Qed.

Lemma lower_rstrip (s : string) :
  Str.lower (Str.rstrip s) = Str.rstrip (Str.lower s).
Proof.
  induction s as [|c s IH]; simpl; [reflexivity|].
  rewrite <- IH. destruct (Str.rstrip s); simpl; [|reflexivity].
  rewrite isspace_lower_char. now destruct (Str.isspace c).
Qed.

Lemma lower_strip (s : string) :
  Str.lower (Str.strip s) = Str.strip (Str.lower s).
Proof. unfold Str.strip. now rewrite lower_rstrip, lower_lstrip. Qed.

Lemma rstrip_idem (s : string) : Str.rstrip (Str.rstrip s) = Str.rstrip s.
Proof.
  induction s as [|c s IH]; simpl; [reflexivity|].
  destruct (Str.rstrip s) as [|d r] eqn:E.
  - destruct (Str.isspace c) eqn:Ec; simpl; [reflexivity|]. now rewrite Ec.
  - change (Str.rstrip (String c (String d r))) with
      (match Str.rstrip (String d r) with
       | EmptyString =>
           if Str.isspace c then EmptyString else String c EmptyString
       | String d' r' => String c (String d' r')
       end).
    now rewrite IH.
Qed.

(** A string that does not begin with a blank. *)
Lemma lstrip_fixed (s : string) :
  match s with
  | EmptyString => True
  | String c _ => Str.isspace c = false
  end ->
  Str.lstrip s = s.
Proof. destruct s as [|c s]; simpl; [reflexivity|]. now intros ->. Qed.

Lemma lstrip_head (s : string) :
  match Str.lstrip s with
  | EmptyString => True
  | String c _ => Str.isspace c = false
  end.
Proof.
  induction s as [|c s IH]; simpl; [exact I|].
  destruct (Str.isspace c) eqn:E; [exact IH|exact E].
Qed.

Lemma rstrip_head (s : string) :
  match s with
  | EmptyString => True
  | String c _ => Str.isspace c = false
  end ->
  match Str.rstrip s with
  | EmptyString => True
  | String c _ => Str.isspace c = false
  end.
Proof.
  destruct s as [|c s]; simpl; [trivial|]. intros E.
  destruct (Str.rstrip s); [now rewrite E|exact E].
Qed.

Lemma strip_idem (s : string) : Str.strip (Str.strip s) = Str.strip s.
Proof.
  unfold Str.strip.
  rewrite (lstrip_fixed (Str.rstrip (Str.lstrip s))).
  - apply rstrip_idem.
  - apply rstrip_head, lstrip_head.
Qed.

Lemma normal_idem (g : string) : normal (normal g) = normal g.
Proof.
  unfold normal. now rewrite <- lower_strip, strip_idem, lower_idem.
Qed.

Lemma startswith_nil (s : string) : Str.startswith s EmptyString = true.
Proof. now destruct s. Qed.

Lemma startswith_rstrip (s : string) : Str.startswith s (Str.rstrip s) = true.
Proof.
  induction s as [|c s IH]; simpl; [reflexivity|].
  destruct (Str.rstrip s) as [|d r].
  - destruct (Str.isspace c); simpl; [reflexivity|].
    now rewrite Ascii.eqb_refl, startswith_nil.
  - simpl. rewrite Ascii.eqb_refl. exact IH.
Qed.

Lemma contains_startswith (s q : string) :
  Str.startswith s q = true -> Str.contains s q = true.
Proof. destruct s; simpl; intros ->; reflexivity. Qed.

Lemma contains_lstrip (s q : string) :
  Str.contains (Str.lstrip s) q = true -> Str.contains s q = true.
Proof.
  induction s as [|c s IH]; simpl; [trivial|].
  destruct (Str.isspace c); [|trivial].
  intros H. rewrite (IH H). apply orb_true_r.
Qed.

Lemma contains_strip (s : string) : Str.contains s (Str.strip s) = true.
Proof.
  apply contains_lstrip, contains_startswith, startswith_rstrip.
Qed.

Lemma contains_nil (s : string) : Str.contains s EmptyString = true.
Proof. apply contains_startswith, startswith_nil. Qed.

(** ** Construction of a record *)

Lemma init_returns now title duration_minutes release_date content_rating
    genres description r :
  MediaContent.init now title duration_minutes release_date content_rating
    genres description = Return r ->
  title <> EmptyString /\ 0 < duration_minutes /\ genres <> []
  /\ r = MediaContent.mk (Str.strip title) duration_minutes release_date
           content_rating (map normal genres) (Str.strip description)
           0 0%Q [] now.
Proof.
  unfold MediaContent.init.
  destruct title as [|c title]; simpl; [discriminate|].
  destruct (Z.leb_spec duration_minutes 0); [discriminate|].
  destruct genres as [|g genres]; [discriminate|].
  intros [= <-]. repeat split; try discriminate. assumption.
Qed.

Lemma matches_genre_normal (r : MediaContent.t) (genres : list string)
    (genre : string) :
  MediaContent._genres r = map normal genres ->
  MediaContent.matches_genre r genre = true
  <-> exists g, In g genres /\ normal g = normal genre.
Proof.
  intros Hg. unfold MediaContent.matches_genre.
  rewrite Hg, existsb_exists, <- lower_strip. fold (normal genre). split.
  - intros [x [Hin E]]. apply String.eqb_eq in E.
    apply in_map_iff in Hin. destruct Hin as [g [<- Hin]].
    exists g. auto.
  - intros [g [Hin E]]. exists (normal g). split.
    + now apply in_map.
    + apply String.eqb_eq. congruence.
Qed.

Lemma matches_search_blank (self : MediaContent.t) (query : string) :
  Str.strip query = EmptyString ->
  MediaContent.matches_search self query = true.
Proof.
  intros H. unfold MediaContent.matches_search.
  rewrite <- lower_strip, H. simpl. now rewrite contains_nil.
Qed.

(** X1: [MediaContent.__init__] makes its three tests in the order title,
    duration, genres and raises at the first that fails; it returns a
    record exactly when the title is not empty, the duration is positive
    and the list of genres is not empty. *)
Theorem init_validation now title duration_minutes release_date content_rating
    genres description :
  let result :=
    MediaContent.init now title duration_minutes release_date content_rating
      genres description in
  (title = EmptyString ->
   result = Raise (ValueError "Title must be a non-empty string"))
  /\ (title <> EmptyString -> duration_minutes <= 0 ->
      result = Raise (ValueError "Duration must be a positive integer"))
  /\ (title <> EmptyString -> 0 < duration_minutes -> genres = [] ->
      result = Raise (ValueError "Genres must be a non-empty list"))
  /\ ((exists r, result = Return r)
      <-> title <> EmptyString /\ 0 < duration_minutes /\ genres <> []).
Proof.
  cbv zeta. unfold MediaContent.init.
  destruct title as [|c title]; simpl.
  - split; [reflexivity|]. split; [congruence|]. split; [congruence|].
    split; [intros [r H]; discriminate|intros [H _]; congruence].
  - split; [discriminate|].
    destruct (Z.leb_spec duration_minutes 0).
    + split; [reflexivity|]. split; [lia|].
      split; [intros [r Hr]; discriminate|intros [_ [Hd _]]; lia].
    + split; [lia|]. destruct genres as [|g genres].
      * split; [reflexivity|].
        split; [intros [r Hr]; discriminate|intros [_ [_ Hg]]; congruence].
      * split; [discriminate|].
        split; [intros _; repeat split; [discriminate|assumption|discriminate]|].
        intros _. eexists. reflexivity.
Qed.

Lemma init_validation_witness :
  MediaContent.init 0 EmptyString 0 0 G [] "text"
  = Raise (ValueError "Title must be a non-empty string")
  /\ MediaContent.init 0 "Dune" 0 0 G [] "text"
     = Raise (ValueError "Duration must be a positive integer")
  /\ MediaContent.init 0 "Dune" 120 0 G [] "text"
     = Raise (ValueError "Genres must be a non-empty list")
  /\ exists r, MediaContent.init 0 "Dune" 120 0 G ["drama"] "text" = Return r.
Proof.
  split; [|split; [|split]].
  - apply (init_validation 0 EmptyString 0 0 G [] "text"). reflexivity.
  - apply (init_validation 0 "Dune" 0 0 G [] "text"); [discriminate|lia].
  - apply (init_validation 0 "Dune" 120 0 G [] "text");
      [discriminate|lia|reflexivity].
  - apply (init_validation 0 "Dune" 120 0 G ["drama"] "text").
    split; [discriminate|split; [lia|discriminate]].
Defined.

(** X2: a constructed record stores normal forms.  Its title and its
    description are trimmed, so that trimming them again changes nothing;
    it has one genre for each genre given, each lowered and trimmed; its
    counters start at zero and its history of ratings is empty. *)
Theorem init_stores_normal_forms now title duration_minutes release_date
    content_rating genres description r :
  MediaContent.init now title duration_minutes release_date content_rating
    genres description = Return r ->
  MediaContent.title r = Str.strip title
  /\ Str.strip (MediaContent.title r) = MediaContent.title r
  /\ Str.strip (MediaContent.description r) = MediaContent.description r
  /\ MediaContent.genres r = map normal genres
  /\ Forall (fun g => Str.lower g = g /\ Str.strip g = g)
       (MediaContent.genres r)
  /\ 0 < MediaContent.duration_minutes r
  /\ MediaContent.genres r <> []
  /\ MediaContent.view_count r = 0
  /\ MediaContent._ratings r = []
  /\ (MediaContent.average_rating r == 0)%Q.
Proof.
  intros H. destruct (init_returns _ _ _ _ _ _ _ H) as [Ht [Hd [Hg ->]]].
  unfold MediaContent.title, MediaContent.description, MediaContent.genres,
    MediaContent.duration_minutes, MediaContent.view_count,
    MediaContent.average_rating. simpl.
  repeat split; try reflexivity; try assumption.
  - apply strip_idem.
  - apply strip_idem.
  - apply Forall_forall. intros g Hin. apply in_map_iff in Hin.
    destruct Hin as [g0 [<- _]]. unfold normal. split.
    + apply lower_idem.
    + now rewrite <- lower_strip, strip_idem.
  - destruct genres; [congruence|discriminate].
Qed.

Lemma init_stores_normal_forms_witness :
  exists r,
    MediaContent.init 0 "  Dune " 120 0 G [" Sci-Fi"; "DRAMA "] " A film "
    = Return r
    /\ MediaContent.title r = "Dune"
    /\ MediaContent.genres r = ["sci-fi"; "drama"].
Proof.
  eexists. split; [reflexivity|].
  destruct (@init_stores_normal_forms 0 "  Dune " 120 0 G
              [" Sci-Fi"; "DRAMA "] " A film " _ eq_refl)
    as [Ht [_ [_ [Hg _]]]].
  split; [rewrite Ht|rewrite Hg]; reflexivity.
Defined.

(** X3: [matches_genre] on a constructed record holds of a genre exactly
    when one of the genres given at construction has the same normal form,
    so the test sees neither case nor surrounding blanks. *)
Theorem matches_genre_of_constructed now title duration_minutes release_date
    content_rating genres description r :
  MediaContent.init now title duration_minutes release_date content_rating
    genres description = Return r ->
  forall genre,
    MediaContent.matches_genre r genre = true
    <-> exists g, In g genres /\ normal g = normal genre.
Proof.
  intros H genre. destruct (init_returns _ _ _ _ _ _ _ H) as [_ [_ [_ ->]]].
  now apply matches_genre_normal.
Qed.

Lemma matches_genre_of_constructed_witness :
  exists r,
    MediaContent.init 0 "Dune" 120 0 G [" Sci-Fi"] "A film" = Return r
    /\ MediaContent.matches_genre r "SCI-FI  " = true.
Proof.
  eexists. split; [reflexivity|].
  apply (@matches_genre_of_constructed 0 "Dune" 120 0 G [" Sci-Fi"] "A film"
           _ eq_refl "SCI-FI  ").
  exists " Sci-Fi". split; [now left|reflexivity].
Defined.

(** X4: a record matches the search for any query that, lowered and
    trimmed, is its own lowered and trimmed title, and it matches every
    query that is empty or made of blanks. *)
Theorem matches_search_title (self : MediaContent.t) (query : string) :
  (Str.strip (Str.lower query)
   = Str.strip (Str.lower (MediaContent.title self)) ->
   MediaContent.matches_search self query = true)
  /\ (Str.strip query = EmptyString ->
      MediaContent.matches_search self query = true).
Proof.
  unfold MediaContent.matches_search. split.
  - intros ->. now rewrite contains_strip.
  - intros H. rewrite <- lower_strip, H. simpl. now rewrite contains_nil.
Qed.

Lemma matches_search_title_witness :
  MediaContent.matches_search (sample_base "Dune") "  DUNE " = true
  /\ MediaContent.matches_search (sample_base "Dune") "   " = true.
Proof.
  split.
  - apply (proj1 (matches_search_title (sample_base "Dune") "  DUNE ")).
    reflexivity.
  - apply (proj2 (matches_search_title (sample_base "Dune") "   ")).
    reflexivity.
Defined.

(** ** Histories of one record *)








(** X6: no history of [add_view] and [add_rating] calls changes the
    descriptive fields of a record or its creation time, and the view
    count grows by the number of [add_view] calls, whatever ratings are
    made in between. *)
Theorem calls_keep_description (self : MediaContent.t) (l : list record_call) :
  let r := calls self l in
  MediaContent.title r = MediaContent.title self
  /\ MediaContent.duration_minutes r = MediaContent.duration_minutes self
  /\ MediaContent.release_date r = MediaContent.release_date self
  /\ MediaContent.content_rating r = MediaContent.content_rating self
  /\ MediaContent.genres r = MediaContent.genres self
  /\ MediaContent.description r = MediaContent.description self
  /\ MediaContent._created_at r = MediaContent._created_at self
  /\ MediaContent.view_count r = MediaContent.view_count self + views_in l.
Proof.
  cbv zeta. revert self. induction l as [|c l IH]; intros self.
  - unfold views_in. simpl. repeat split. lia.
  - unfold calls. simpl. fold (calls (call self c) l).
    destruct (IH (call self c)) as [Ht [Hd [Hr [Hc [Hg [He [Hk Hv]]]]]]].
    rewrite Ht, Hd, Hr, Hc, Hg, He, Hk, Hv.
    destruct c as [|v].
    + unfold views_in. simpl filter. simpl List.length.
      rewrite Nat2Z.inj_succ. simpl call.
      unfold MediaContent.view_count. simpl. repeat split. lia.
    + simpl call. unfold MediaContent.add_rating.
      destruct (MediaContent.accepted_rating v); simpl; repeat split.
Qed.

(** ** Objects on the heap *)

Lemma with_super_super (o : object) : with_super o (super o) = o.
Proof. destruct o as [m|s|m|p]; [destruct m|destruct s|destruct m|destruct p]; reflexivity. Qed.

(** X7: rating or viewing one record leaves every other object as it was
    and leaves the kind of every object as it was; a rating that is
    rejected leaves every object as it was, the rated one included. *)
Theorem heap_calls_are_local (h : heap) (c : loc) (rating : pyval) :
  (forall c', c' <> c -> fst (add_rating c rating h) c' = h c')
  /\ (forall c', c' <> c -> add_view c h c' = h c')
  /\ (forall c',
         get_media_type (fst (add_rating c rating h) c')
         = get_media_type (h c')
         /\ get_media_type (add_view c h c') = get_media_type (h c'))
  /\ ((forall q, ~ rating_in_range rating q) ->
      snd (add_rating c rating h)
      = Raise (ValueError "Rating must be between 1.0 and 5.0")
      /\ forall c', fst (add_rating c rating h) c' = h c').
Proof.
  unfold add_rating, add_view.
  destruct (MediaContent.add_rating rating (super (h c))) as [b r] eqn:E.
  simpl. unfold update. split; [|split; [|split]].
  - intros c' Hne. destruct (Nat.eqb_spec c' c); [contradiction|reflexivity].
  - intros c' Hne. destruct (Nat.eqb_spec c' c); [contradiction|reflexivity].
  - intros c'. destruct (Nat.eqb_spec c' c) as [->|_]; [|split; reflexivity].
    now rewrite !get_media_type_with_super.
  - intros Hout.
    unfold MediaContent.add_rating in E.
    destruct (MediaContent.accepted_rating rating) as [q|] eqn:Ea.
    { apply accepted_rating_iff in Ea. now apply Hout in Ea. }
    injection E as <- <-. split; [reflexivity|].
    intros c'. destruct (Nat.eqb_spec c' c) as [->|_]; [|reflexivity].
    apply with_super_super.
Qed.

Lemma heap_calls_are_local_witness :
  fst (add_rating 1%nat (PyInt 4) mixed) 0%nat = mixed 0%nat
  /\ fst (add_rating 1%nat (PyInt 9) mixed) 1%nat = mixed 1%nat.
Proof.
  split.
  - apply (proj1 (heap_calls_are_local mixed 1%nat (PyInt 4))). discriminate.
  - apply (proj2 (proj2 (proj2 (heap_calls_are_local mixed 1%nat (PyInt 9))))).
    intros q H. inversion H; subst. lia.
Defined.

(** ** Filters *)

Lemma ContentRating_eqb_eq (a b : ContentRating) :
  ContentRating_eqb a b = true <-> a = b.
Proof. destruct a, b; simpl; split; congruence. Qed.

Lemma set_clause (A : Type) (p : A -> bool) (s : list A) :
  SearchFilter.nonempty s && negb (existsb p s) = false
  <-> s = [] \/ exists x, In x s /\ p x = true.
Proof.
  destruct s as [|a s].
  - simpl. split; auto.
  - change (SearchFilter.nonempty (a :: s)) with true.
    rewrite andb_true_l, negb_false_iff, existsb_exists. split.
    + intros H. now right.
    + intros [H|H]; [discriminate|exact H].
Qed.

Lemma float_clause (o : option Q) (x : Q) :
  truthy_float o
  && match o with Some m => Qlt_bool x m | None => false end = false
  <-> forall m, o = Some m -> ~ (m == 0)%Q -> (m <= x)%Q.
Proof.
  destruct o as [m|]; simpl.
  - destruct (Qeq_bool m 0) eqn:E; simpl.
    + apply Qeq_bool_iff in E. split; [|reflexivity].
      intros _ m' [= <-] H. contradiction.
    + rewrite Qlt_bool_false_iff. split.
      * intros H m' [= <-] _. exact H.
      * intros H. apply (H m eq_refl). intros E'.
        apply Qeq_bool_iff in E'. congruence.
  - split; [discriminate|reflexivity].
Qed.

Lemma int_clause (o : option Z) (test : Z -> bool) :
  truthy_int o && match o with Some d => test d | None => false end = false
  <-> forall d, o = Some d -> d <> 0 -> test d = false.
Proof.
  destruct o as [d|]; simpl.
  - destruct (Z.eqb_spec d 0) as [->|Hd]; simpl.
    + split; [|reflexivity]. intros _ d' [= <-] H. contradiction.
    + split.
      * intros H d' [= <-] _. exact H.
      * intros H. now apply H.
  - split; [discriminate|reflexivity].
Qed.

Lemma matches_clauses (now : Z) (f : SearchFilter.t) (o : object) :
  SearchFilter.matches now f o = true
  <-> SearchFilter.nonempty (SearchFilter.genres f)
      && negb (existsb (MediaContent.matches_genre (super o))
                 (SearchFilter.genres f)) = false
      /\ SearchFilter.nonempty (SearchFilter.media_types f)
         && negb (existsb (MediaType_eqb (get_media_type o))
                    (SearchFilter.media_types f)) = false
      /\ SearchFilter.nonempty (SearchFilter.content_ratings f)
         && negb (existsb
                    (ContentRating_eqb
                       (MediaContent.content_rating (super o)))
                    (SearchFilter.content_ratings f)) = false
      /\ truthy_float (SearchFilter.min_rating f)
         && match SearchFilter.min_rating f with
            | Some m => Qlt_bool (MediaContent.average_rating (super o)) m
            | None => false
            end = false
      /\ truthy_int (SearchFilter.max_duration f)
         && match SearchFilter.max_duration f with
            | Some d => d <? MediaContent.duration_minutes (super o)
            | None => false
            end = false
      /\ truthy_int (SearchFilter.recently_released_days f)
         && match SearchFilter.recently_released_days f with
            | Some d =>
                negb (MediaContent.is_recently_released now (super o) d)
            | None => false
            end = false.
Proof.
  unfold SearchFilter.matches.
  repeat match goal with
         | |- context [if ?b then false else _] => destruct b
         end; intuition congruence.
Qed.

Lemma first_five_iff (f : SearchFilter.t) (o : object) :
  first_five f o
  <-> SearchFilter.nonempty (SearchFilter.genres f)
      && negb (existsb (MediaContent.matches_genre (super o))
                 (SearchFilter.genres f)) = false
      /\ SearchFilter.nonempty (SearchFilter.media_types f)
         && negb (existsb (MediaType_eqb (get_media_type o))
                    (SearchFilter.media_types f)) = false
      /\ SearchFilter.nonempty (SearchFilter.content_ratings f)
         && negb (existsb
                    (ContentRating_eqb
                       (MediaContent.content_rating (super o)))
                    (SearchFilter.content_ratings f)) = false
      /\ truthy_float (SearchFilter.min_rating f)
         && match SearchFilter.min_rating f with
            | Some m => Qlt_bool (MediaContent.average_rating (super o)) m
            | None => false
            end = false
      /\ truthy_int (SearchFilter.max_duration f)
         && match SearchFilter.max_duration f with
            | Some d => d <? MediaContent.duration_minutes (super o)
            | None => false
            end = false.
Proof.
  unfold first_five.
  rewrite <- (set_clause (MediaContent.matches_genre (super o))).
  assert (Hin : forall (A : Type) (eqb : A -> A -> bool) (x : A) (s : list A),
             (forall a b, eqb a b = true <-> a = b) ->
             (s = [] \/ In x s)
             <-> SearchFilter.nonempty s && negb (existsb (eqb x) s) = false).
  { intros A eqb x s Heq. rewrite set_clause. split.
    - intros [H|H]; [now left|]. right. exists x. split; [exact H|].
      now apply Heq.
    - intros [H|[y [H E]]]; [now left|]. right. apply Heq in E. now subst. }
  rewrite (Hin _ MediaType_eqb _ _ MediaType_eqb_eq).
  rewrite (Hin _ ContentRating_eqb _ _ ContentRating_eqb_eq).
  rewrite <- float_clause.
  assert (Hd : (forall d, SearchFilter.max_duration f = Some d -> d <> 0 ->
                          MediaContent.duration_minutes (super o) <= d)
               <-> truthy_int (SearchFilter.max_duration f)
                   && match SearchFilter.max_duration f with
                      | Some d => d <? MediaContent.duration_minutes (super o)
                      | None => false
                      end = false).
  { rewrite int_clause. split; intros H d E Hne; specialize (H d E Hne).
    - apply Z.ltb_ge. exact H.
    - apply Z.ltb_ge in H. exact H. }
  rewrite Hd. reflexivity.
Qed.

Lemma is_recently_released_overflows now self d :
  Raising.is_recently_released now self d = Raise OverflowError
  <-> ~ (Z.abs d <= timedelta_max_days
         /\ datetime_min <= now - timedelta_days d <= datetime_max).
Proof.
  unfold Raising.is_recently_released, Raising.timedelta,
    Raising.datetime_sub.
  destruct (Z.leb_spec (Z.abs d) timedelta_max_days); cbn [bind];
    [|split; [lia|reflexivity]].
  destruct (Z.leb_spec datetime_min (now - timedelta_days d));
    destruct (Z.leb_spec (now - timedelta_days d) datetime_max);
    cbn [andb bind]; split; intros; try discriminate; try reflexivity; lia.
Qed.

(** X8: [SearchFilter.matches] makes six tests in order.  It returns
    True exactly when the first five hold and the sixth is not made
    ([recently_released_days] is [None] or zero) or
    [is_recently_released] returns True; it returns False exactly when
    one of the first five fails, or they hold and [is_recently_released]
    returns False; it raises OverflowError exactly when the first five
    hold and [is_recently_released] raises it, which is when the days
    exceed 999999999 in magnitude or the cutoff is no [datetime]. *)
Theorem matches_is_conjunction (now : Z) (f : SearchFilter.t) (o : object) :
  let sixth (r : outcome bool) :=
    exists d,
      SearchFilter.recently_released_days f = Some d /\ d <> 0
      /\ Raising.is_recently_released now (super o) d = r in
  (Raising.matches now f o = Return true
   <-> first_five f o
       /\ (SearchFilter.recently_released_days f = None
           \/ SearchFilter.recently_released_days f = Some 0
           \/ sixth (Return true)))
  /\ (Raising.matches now f o = Return false
      <-> ~ first_five f o \/ (first_five f o /\ sixth (Return false)))
  /\ (Raising.matches now f o = Raise OverflowError
      <-> first_five f o /\ sixth (Raise OverflowError))
  /\ (forall d,
         Raising.is_recently_released now (super o) d = Raise OverflowError
         <-> ~ (Z.abs d <= 999999999
                /\ -62135596800000000 <= now - d * 86400000000
                   <= 253402300799999999)).
Proof.
  cbv zeta.
  split; [|split; [|split; [|intros d; apply is_recently_released_overflows]]];
    rewrite first_five_iff; five_clauses f o;
    (destruct c1;
     [first
        [split; [discriminate|intros H; exfalso; intuition congruence]
        |split; [intros _; left; intuition congruence|reflexivity]]
     |]);
    (destruct c2;
     [first
        [split; [discriminate|intros H; exfalso; intuition congruence]
        |split; [intros _; left; intuition congruence|reflexivity]]
     |]);
    (destruct c3;
     [first
        [split; [discriminate|intros H; exfalso; intuition congruence]
        |split; [intros _; left; intuition congruence|reflexivity]]
     |]);
    (destruct c4;
     [first
        [split; [discriminate|intros H; exfalso; intuition congruence]
        |split; [intros _; left; intuition congruence|reflexivity]]
     |]);
    (destruct c5;
     [first
        [split; [discriminate|intros H; exfalso; intuition congruence]
        |split; [intros _; left; intuition congruence|reflexivity]]
     |]).
  - destruct (SearchFilter.recently_released_days f) as [d|].
    + destruct (Z.eqb_spec d 0) as [->|Hd]; cbn [negb].
      * split; [intros _; split; [tauto|]; right; now left|reflexivity].
      * destruct (Raising.is_recently_released now (super o) d)
          as [[|]|e] eqn:E; cbn [bind negb]; split.
        -- intros _. split; [tauto|]. right. right. exists d. tauto.
        -- reflexivity.
        -- discriminate.
        -- intros [_ [H|[H|[d' [[= <-] [_ H]]]]]]; congruence.
        -- discriminate.
        -- intros [_ [H|[H|[d' [[= <-] [_ H]]]]]]; congruence.
    + split; [intros _; split; [tauto|]; now left|reflexivity].
  - destruct (SearchFilter.recently_released_days f) as [d|].
    + destruct (Z.eqb_spec d 0) as [->|Hd]; cbn [negb].
      * split; [discriminate|].
        intros [H|[_ [d' [[= <-] [H _]]]]]; [exfalso; tauto|congruence].
      * destruct (Raising.is_recently_released now (super o) d)
          as [[|]|e] eqn:E; cbn [bind negb]; split.
        -- discriminate.
        -- intros [H|[_ [d' [[= <-] [_ H]]]]]; [exfalso; tauto|congruence].
        -- intros _. right. split; [tauto|]. exists d. tauto.
        -- reflexivity.
        -- discriminate.
        -- intros [H|[_ [d' [[= <-] [_ H]]]]]; [exfalso; tauto|congruence].
    + split; [discriminate|].
      intros [H|[_ [d' [H _]]]]; [exfalso; tauto|discriminate].
  - destruct (SearchFilter.recently_released_days f) as [d|].
    + destruct (Z.eqb_spec d 0) as [->|Hd]; cbn [negb].
      * split; [discriminate|]. intros [_ [d' [[= <-] [H _]]]]. congruence.
      * destruct (Raising.is_recently_released now (super o) d)
          as [[|]|e] eqn:E; cbn [bind negb]; split.
        -- discriminate.
        -- intros [_ [d' [[= <-] [_ H]]]]. congruence.
        -- discriminate.
        -- intros [_ [d' [[= <-] [_ H]]]]. congruence.
        -- intros [= ->]. split; [tauto|]. exists d. tauto.
        -- intros [_ [d' [[= <-] [_ H]]]]. congruence.
    + split; [discriminate|]. intros [_ [d' [H _]]]. discriminate.
Qed.

Lemma matches_is_conjunction_witness :
  Raising.matches 0
    (SearchFilter.add_type_filter TV_SHOW
       (SearchFilter.add_genre_filter "Drama" SearchFilter.init))
    (mixed 1%nat) = Return true.
Proof.
  apply (proj2 (proj1 (matches_is_conjunction 0
                         (SearchFilter.add_type_filter TV_SHOW
                            (SearchFilter.add_genre_filter "Drama"
                               SearchFilter.init))
                         (mixed 1%nat)))).
  split; [|now left].
  split; [right; exists "drama"; split; [now left|reflexivity]|].
  split; [right; now left|].
  split; [now left|].
  split; intros; discriminate.
Defined.

(** The filter that [SearchFilter()] makes matches every record, so a
    search with it returns what the search without a filter returns. *)
Lemma fresh_filter_matches_all :
  (forall now o, SearchFilter.matches now SearchFilter.init o = true)
  /\ (forall h now self query,
         MediaLibrary.search h now self query (Some SearchFilter.init)
         = MediaLibrary.search h now self query None).
Proof.
  split; [reflexivity|]. intros h now self query.
  unfold MediaLibrary.search. apply filter_ext. intros c. reflexivity.
Qed.

(** X9: [set_rating_filter] raises for a minimum outside [1, 5] and
    otherwise returns the filter with that minimum and its other fields
    as they were.  The filter it returns matches no record whose average
    is below the minimum, hence no record without ratings. *)
Theorem set_rating_filter_spec (m : Q) (f : SearchFilter.t) :
  (~ ((1 <= m)%Q /\ (m <= 5)%Q) ->
   SearchFilter.set_rating_filter m f
   = Raise (ValueError "Rating must be between 1.0 and 5.0"))
  /\ ((1 <= m)%Q /\ (m <= 5)%Q ->
      exists f',
        SearchFilter.set_rating_filter m f = Return f'
        /\ SearchFilter.min_rating f' = Some m
        /\ SearchFilter.genres f' = SearchFilter.genres f
        /\ SearchFilter.media_types f' = SearchFilter.media_types f
        /\ SearchFilter.content_ratings f' = SearchFilter.content_ratings f
        /\ SearchFilter.max_duration f' = SearchFilter.max_duration f
        /\ SearchFilter.recently_released_days f'
           = SearchFilter.recently_released_days f
        /\ forall now o,
            SearchFilter.matches now f' o = true ->
            (m <= MediaContent.average_rating (super o))%Q
            /\ ~ (MediaContent.average_rating (super o) == 0)%Q).
Proof.
  unfold SearchFilter.set_rating_filter. split.
  - intros H. destruct (Qle_bool 1 m && Qle_bool m 5) eqn:E; [|reflexivity].
    apply andb_true_iff in E. destruct E as [E1 E2].
    apply Qle_bool_iff in E1, E2. tauto.
  - intros [H1 H5].
    pose proof H1 as E1. pose proof H5 as E5.
    apply Qle_bool_iff in E1, E5. rewrite E1, E5. simpl.
    eexists. split; [reflexivity|]. simpl.
    do 6 (split; [reflexivity|]). intros now o H.
    apply matches_clauses in H.
    destruct H as [_ [_ [_ [H _]]]]. simpl in H.
    assert (Hm : (m <= MediaContent.average_rating (super o))%Q).
    { apply (proj1 (float_clause (Some m) _) H m eq_refl).
      intros E. rewrite E in H1. exact (H1 eq_refl). }
    split; [exact Hm|]. intros E. rewrite E in Hm.
    exact (Qle_trans _ _ _ H1 Hm eq_refl).
Qed.

Lemma set_rating_filter_spec_witness :
  SearchFilter.set_rating_filter 6 SearchFilter.init
  = Raise (ValueError "Rating must be between 1.0 and 5.0")
  /\ exists f',
      SearchFilter.set_rating_filter 4 SearchFilter.init = Return f'
      /\ SearchFilter.min_rating f' = Some 4%Q.
Proof.
  split.
  - apply (proj1 (set_rating_filter_spec 6 SearchFilter.init)).
    intros [_ H]. exact (H eq_refl).
  - destruct (proj2 (set_rating_filter_spec 4 SearchFilter.init))
      as [f' [E [Hm _]]]; [split; discriminate|].
    exists f'. split; assumption.
Defined.

Lemma set_add_In (A : Type) (eqb : A -> A -> bool) (x y : A) (s : list A) :
  (forall a b, eqb a b = true <-> a = b) ->
  In y (SearchFilter.set_add eqb x s) <-> y = x \/ In y s.
Proof.
  intros Heq. unfold SearchFilter.set_add.
  destruct (existsb (eqb x) s) eqn:E.
  - split; [now right|]. intros [->|H]; [|exact H].
    apply existsb_exists in E. destruct E as [z [Hz E]].
    apply Heq in E. now subst.
  - rewrite in_app_iff. simpl. intuition.
Qed.

Lemma set_add_NoDup (A : Type) (eqb : A -> A -> bool) (x : A) (s : list A) :
  (forall a b, eqb a b = true <-> a = b) ->
  NoDup s -> NoDup (SearchFilter.set_add eqb x s).
Proof.
  intros Heq Hs. unfold SearchFilter.set_add.
  destruct (existsb (eqb x) s) eqn:E; [exact Hs|].
  apply NoDup_app; [exact Hs|repeat constructor; simpl; tauto|].
  intros y Hy [->|[]].
  assert (existsb (eqb y) s = true); [|congruence].
  apply existsb_exists. exists y. split; [exact Hy|]. now apply Heq.
Qed.

Lemma set_add_again (A : Type) (eqb : A -> A -> bool) (x : A) (s : list A) :
  (forall a b, eqb a b = true <-> a = b) ->
  SearchFilter.set_add eqb x (SearchFilter.set_add eqb x s)
  = SearchFilter.set_add eqb x s.
Proof.
  intros Heq. unfold SearchFilter.set_add at 1.
  assert (E : existsb (eqb x) (SearchFilter.set_add eqb x s) = true).
  { apply existsb_exists. exists x. split.
    - apply set_add_In; auto.
    - now apply Heq. }
  now rewrite E.
Qed.

(** X10: the genres and kinds of a filter are sets.  [add_genre_filter]
    adds the normal form of the genre, [add_type_filter] the kind; a
    member already present is not added again, so adding a genre twice,
    in any case and with any blanks around it, is adding it once, and a
    set without repetition stays so. *)
Theorem filter_sets (f : SearchFilter.t) :
  (forall genre x,
      In x (SearchFilter.genres (SearchFilter.add_genre_filter genre f))
      <-> x = normal genre \/ In x (SearchFilter.genres f))
  /\ (forall genre genre',
         normal genre = normal genre' ->
         SearchFilter.add_genre_filter genre
           (SearchFilter.add_genre_filter genre' f)
         = SearchFilter.add_genre_filter genre' f)
  /\ (forall k x,
         In x (SearchFilter.media_types (SearchFilter.add_type_filter k f))
         <-> x = k \/ In x (SearchFilter.media_types f))
  /\ (forall k,
         SearchFilter.add_type_filter k (SearchFilter.add_type_filter k f)
         = SearchFilter.add_type_filter k f)
  /\ (NoDup (SearchFilter.genres f) ->
      forall genre,
        NoDup (SearchFilter.genres (SearchFilter.add_genre_filter genre f)))
  /\ (NoDup (SearchFilter.media_types f) ->
      forall k,
        NoDup (SearchFilter.media_types (SearchFilter.add_type_filter k f))).
Proof.
  assert (Hn : forall genre, Str.strip (Str.lower genre) = normal genre)
    by (intros genre; unfold normal; now rewrite lower_strip).
  split; [|split; [|split; [|split; [|split]]]].
  - intros genre x. unfold SearchFilter.add_genre_filter. simpl.
    rewrite Hn. apply set_add_In. apply String.eqb_eq.
  - intros genre genre' E. unfold SearchFilter.add_genre_filter. simpl.
    rewrite !Hn, E. f_equal. apply set_add_again. apply String.eqb_eq.
  - intros k x. unfold SearchFilter.add_type_filter. simpl.
    apply set_add_In. apply MediaType_eqb_eq.
  - intros k. unfold SearchFilter.add_type_filter. simpl. f_equal.
    apply set_add_again. apply MediaType_eqb_eq.
  - intros H genre. unfold SearchFilter.add_genre_filter. simpl.
    apply set_add_NoDup; [apply String.eqb_eq|exact H].
  - intros H k. unfold SearchFilter.add_type_filter. simpl.
    apply set_add_NoDup; [apply MediaType_eqb_eq|exact H].
Qed.

Lemma filter_sets_witness :
  SearchFilter.add_genre_filter " DRAMA"
    (SearchFilter.add_genre_filter "drama " SearchFilter.init)
  = SearchFilter.add_genre_filter "drama " SearchFilter.init
  /\ NoDup (SearchFilter.genres
              (SearchFilter.add_genre_filter "Drama" SearchFilter.init)).
Proof.
  split.
  - apply (proj1 (proj2 (filter_sets SearchFilter.init))). reflexivity.
  - apply (proj1 (proj2 (proj2 (proj2 (proj2
             (filter_sets SearchFilter.init)))))). constructor.
Defined.

(** X11: a filter with one genre and nothing else matches a constructed
    record exactly when one of the genres given at construction has the
    normal form of the genre given to the filter. *)
Theorem genre_filter_on_constructed now title duration_minutes release_date
    content_rating genres description r (o : object) (genre : string) :
  MediaContent.init now title duration_minutes release_date content_rating
    genres description = Return r ->
  super o = r ->
  forall now',
    SearchFilter.matches now'
      (SearchFilter.add_genre_filter genre SearchFilter.init) o = true
    <-> exists g, In g genres /\ normal g = normal genre.
Proof.
  intros H Ho now'. destruct (init_returns _ _ _ _ _ _ _ H) as [_ [_ [_ Er]]].
  assert (Hg : SearchFilter.genres
                 (SearchFilter.add_genre_filter genre SearchFilter.init)
               = [normal genre]).
  { unfold SearchFilter.add_genre_filter, SearchFilter.set_add. simpl.
    unfold normal. now rewrite lower_strip. }
  assert (Hm : MediaContent.matches_genre r (normal genre) = true
               <-> exists g, In g genres /\ normal g = normal genre).
  { rewrite (@matches_genre_normal r genres (normal genre))
      by (now rewrite Er).
    now rewrite normal_idem. }
  rewrite matches_clauses, Hg, Ho, <- Hm. simpl.
  rewrite orb_false_r, negb_false_iff. tauto.
Qed.

Lemma genre_filter_on_constructed_witness :
  SearchFilter.matches 0
    (SearchFilter.add_genre_filter " DRAMA " SearchFilter.init)
    (AMovie (sample_movie "Dune" None None)) = true.
Proof.
  apply (@genre_filter_on_constructed 0 "Dune" 120 0 PG_13 ["Drama "]
           " A film" (sample_base "Dune")
           (AMovie (sample_movie "Dune" None None)) " DRAMA "
           eq_refl eq_refl 0).
  exists "Drama ". split; [now left|reflexivity].
Defined.

(** ** The library holds each record once *)

Lemma remove_inv (l l' : list loc) (x : loc) :
  Py.remove l x = Return l' ->
  exists before after,
    l = before ++ x :: after /\ ~ In x before /\ l' = before ++ after.
Proof.
  revert l'. induction l as [|y l IH]; simpl; intros l' H; [discriminate|].
  destruct (Nat.eqb_spec y x) as [->|Hne].
  - injection H as <-. exists [], l. simpl. tauto.
  - destruct (Py.remove l x) as [r|e]; simpl in H; [|discriminate].
    injection H as <-.
    destruct (IH r eq_refl) as [before [after [-> [Hn ->]]]].
    exists (y :: before), after. simpl. intuition.
Qed.

Lemma remove_NoDup (l l' : list loc) (x : loc) :
  Py.remove l x = Return l' -> NoDup l -> NoDup l'.
Proof.
  intros H Hl. destruct (remove_inv _ _ H) as [before [after [-> [_ ->]]]].
  now apply NoDup_remove_1 in Hl.
Qed.

Lemma add_content_NoDup h c self :
  NoDup (MediaLibrary._content self) ->
  NoDup (MediaLibrary._content (fst (MediaLibrary.add_content h c self))).
Proof.
  intros H. unfold MediaLibrary.add_content.
  destruct (Py.contains (MediaLibrary._content self) c) eqn:E; [exact H|].
  simpl. apply contains_false_iff in E.
  apply NoDup_app; [exact H|repeat constructor; simpl; tauto|].
  intros y Hy [->|[]]. contradiction.
Qed.

Lemma remove_content_NoDup h title self :
  NoDup (MediaLibrary._content self) ->
  NoDup (MediaLibrary._content (fst (MediaLibrary.remove_content h title self))).
Proof.
  intros H. unfold MediaLibrary.remove_content.
  destruct (find (MediaLibrary.title_matches h title)
              (MediaLibrary._content self)) as [c|]; [|exact H].
  destruct (Py.remove (MediaLibrary._content self) c) as [l'|e] eqn:E;
    [|exact H].
  apply remove_NoDup in E; [|exact H].
  destruct (Py.remove
              (MediaLibrary._content_by_type self (get_media_type (h c))) c);
    exact E.
Qed.

Lemma run_NoDup ops :
  forall s, NoDup (MediaLibrary._content (snd s)) ->
            NoDup (MediaLibrary._content (snd (run s ops))).
Proof.
  induction ops as [|o ops IH]; intros s Hs; simpl; [exact Hs|].
  apply IH. destruct s as [h self].
  destruct o as [c|title|c|c rating]; simpl.
  - now apply add_content_NoDup.
  - now apply remove_content_NoDup.
  - exact Hs.
  - exact Hs.
Qed.

Lemma reachable_NoDup (h : heap) (self : MediaLibrary.t) :
  reachable (h, self) -> NoDup (MediaLibrary._content self).
Proof.
  intros [h0 [now [name [ops E]]]].
  change self with (snd (h, self)). rewrite E. apply run_NoDup.
  constructor.
Qed.

(** X12: a library never holds a record twice.  In every state that a new
    library reaches, the collection has no repetition, and neither has the
    list that [get_content_by_type] returns for a kind. *)
Theorem library_holds_each_record_once (h : heap) (self : MediaLibrary.t) :
  reachable (h, self) ->
  NoDup (MediaLibrary._content self)
  /\ forall k, NoDup (MediaLibrary.get_content_by_type self k).
Proof.
  intros Hr. pose proof (reachable_NoDup Hr) as Hn.
  split; [exact Hn|]. intros k. unfold MediaLibrary.get_content_by_type.
  rewrite (in_sync_at k (reachable_in_sync Hr)).
  now apply NoDup_filter.
Qed.

Lemma library_holds_each_record_once_witness :
  NoDup
    (MediaLibrary._content
       (snd (run (twins, MediaLibrary.init 0 "Home")
               [AddContent 0%nat; AddContent 1%nat; AddContent 0%nat;
                RemoveContent "DUNE"; AddContent 0%nat]))).
Proof.
  apply (@library_holds_each_record_once
           (fst (run (twins, MediaLibrary.init 0 "Home")
                   [AddContent 0%nat; AddContent 1%nat; AddContent 0%nat;
                    RemoveContent "DUNE"; AddContent 0%nat]))).
  exists twins, 0, "Home",
    [AddContent 0%nat; AddContent 1%nat; AddContent 0%nat;
     RemoveContent "DUNE"; AddContent 0%nat].
  reflexivity.
Defined.

(** ** Counting *)

Lemma fold_left_add (l : list Z) (a : Z) :
  fold_left Z.add l a = a + fold_left Z.add l 0.
Proof.
  revert a. induction l as [|x l IH]; intros a; simpl; [lia|].
  rewrite (IH (a + x)), (IH x). lia.
Qed.

Lemma super_with_super (o : object) (b : MediaContent.t) :
  super (with_super o b) = b.
Proof. now destruct o. Qed.

Lemma views_after_update (h : heap) (c : loc) (b : MediaContent.t)
    (l : list loc) :
  NoDup l ->
  fold_left Z.add
    (map (fun x =>
            MediaContent.view_count
              (super (update h c (with_super (h c) b) x))) l) 0
  = fold_left Z.add
      (map (fun x => MediaContent.view_count (super (h x))) l) 0
    + (if Py.contains l c
       then MediaContent.view_count b
            - MediaContent.view_count (super (h c))
       else 0).
Proof.
  induction 1 as [|x l Hx Hl IH]; [reflexivity|].
  simpl map. simpl fold_left.
  rewrite fold_left_add,
    (fold_left_add _ (0 + MediaContent.view_count (super (h x)))), IH.
  unfold Py.contains. simpl existsb. fold (Py.contains l c).
  unfold update at 1. rewrite (Nat.eqb_sym c x).
  destruct (Nat.eqb_spec x c) as [->|Hne]; simpl.
  - rewrite super_with_super.
    apply contains_false_iff in Hx. rewrite Hx. lia.
  - destruct (Py.contains l c); lia.
Qed.

(** X13: in every state that a new library reaches, a view of a record
    that the library holds raises [total_views] by one, a view of any
    other record leaves it as it was, and no rating changes it. *)
Theorem total_views_counts_views (h : heap) (self : MediaLibrary.t)
    (c : loc) :
  reachable (h, self) ->
  MediaLibrary.total_views (add_view c h) self
  = MediaLibrary.total_views h self
    + (if Py.contains (MediaLibrary._content self) c then 1 else 0)
  /\ forall rating,
      MediaLibrary.total_views (fst (add_rating c rating h)) self
      = MediaLibrary.total_views h self.
Proof.
  intros Hr. apply reachable_NoDup in Hr. rename Hr into Hn.
  unfold MediaLibrary.total_views. split.
  - unfold add_view. rewrite (views_after_update h c _ Hn).
    unfold MediaContent.view_count. simpl.
    destruct (Py.contains (MediaLibrary._content self) c); lia.
  - intros rating. unfold add_rating.
    destruct (MediaContent.add_rating rating (super (h c))) as [b r] eqn:E.
    simpl. rewrite (views_after_update h c _ Hn).
    assert (Hb : MediaContent.view_count b
                 = MediaContent.view_count (super (h c))).
    { change b with (fst (b, r)). rewrite <- E.
      unfold MediaContent.add_rating.
      now destruct (MediaContent.accepted_rating rating). }
    rewrite Hb. destruct (Py.contains (MediaLibrary._content self) c); lia.
Qed.

Lemma total_views_counts_views_witness :
  let s := run (mixed, MediaLibrary.init 0 "Home")
             [AddContent 0%nat; AddContent 1%nat; AddView 1%nat] in
  MediaLibrary.total_views (add_view 0%nat (fst s)) (snd s) = 2
  /\ MediaLibrary.total_views (add_view 2%nat (fst s)) (snd s) = 1.
Proof.
  intros s.
  assert (Hr : reachable (fst s, snd s)).
  { exists mixed, 0, "Home",
      [AddContent 0%nat; AddContent 1%nat; AddView 1%nat]. reflexivity. }
  split.
  - rewrite (proj1 (total_views_counts_views 0%nat Hr)). reflexivity.
  - rewrite (proj1 (total_views_counts_views 2%nat Hr)). reflexivity.
Defined.

Lemma of_kind_lengths (h : heap) (l : list loc) :
  (List.length (of_kind h MOVIE l) + List.length (of_kind h TV_SHOW l)
   + List.length (of_kind h MUSIC l) + List.length (of_kind h PODCAST l))%nat
  = List.length l.
Proof.
  induction l as [|c l IH]; [reflexivity|].
  unfold of_kind in *. simpl filter.
  destruct (get_media_type (h c)); simpl; lia.
Qed.

(** X14: in every state that a new library reaches, the four lists of
    [get_content_by_type] divide the collection: a record is in the list
    of a kind exactly when the library holds it and it is of that kind,
    and the four lengths add up to [total_content]. *)
Theorem kinds_divide_the_collection (h : heap) (self : MediaLibrary.t) :
  reachable (h, self) ->
  (forall k c,
      In c (MediaLibrary.get_content_by_type self k)
      <-> In c (MediaLibrary._content self) /\ get_media_type (h c) = k)
  /\ Z.of_nat (List.length (MediaLibrary.get_content_by_type self MOVIE))
     + Z.of_nat (List.length (MediaLibrary.get_content_by_type self TV_SHOW))
     + Z.of_nat (List.length (MediaLibrary.get_content_by_type self MUSIC))
     + Z.of_nat (List.length (MediaLibrary.get_content_by_type self PODCAST))
     = MediaLibrary.total_content self.
Proof.
  intros Hr. apply reachable_in_sync in Hr.
  unfold MediaLibrary.get_content_by_type, MediaLibrary.total_content. split.
  - intros k c. rewrite (in_sync_at k Hr). unfold of_kind.
    rewrite filter_In, MediaType_eqb_eq. reflexivity.
  - rewrite !(in_sync_at _ Hr).
    rewrite <- (of_kind_lengths h (MediaLibrary._content self)). lia.
Qed.

Lemma kinds_divide_the_collection_witness :
  let s := run (mixed, MediaLibrary.init 0 "Home")
             [AddContent 0%nat; AddContent 1%nat; AddContent 2%nat] in
  Z.of_nat (List.length (MediaLibrary.get_content_by_type (snd s) MOVIE))
  + Z.of_nat (List.length (MediaLibrary.get_content_by_type (snd s) TV_SHOW))
  + Z.of_nat (List.length (MediaLibrary.get_content_by_type (snd s) MUSIC))
  + Z.of_nat (List.length (MediaLibrary.get_content_by_type (snd s) PODCAST))
  = 3.
Proof.
  intros s.
  assert (Hr : reachable (fst s, snd s)).
  { exists mixed, 0, "Home",
      [AddContent 0%nat; AddContent 1%nat; AddContent 2%nat]. reflexivity. }
  rewrite (proj2 (kinds_divide_the_collection Hr)). reflexivity.
Defined.

(** ** Removing *)

Lemma title_matches_own (h : heap) (c : loc) :
  MediaLibrary.title_matches h (MediaContent.title (super (h c))) c = true.
Proof. unfold MediaLibrary.title_matches. apply String.eqb_refl. Qed.

(** X15: in every state that a new library reaches, if the library does
    not hold a record and holds no record whose title matches the title
    of that record, then adding the record and removing by its title
    gives back the collection and the index as they were. *)
Theorem add_then_remove (h : heap) (self : MediaLibrary.t) (c : loc) :
  reachable (h, self) ->
  ~ In c (MediaLibrary._content self) ->
  (forall c', In c' (MediaLibrary._content self) ->
              MediaLibrary.title_matches h
                (MediaContent.title (super (h c))) c' = false) ->
  exists self',
    MediaLibrary.remove_content h (MediaContent.title (super (h c)))
      (fst (MediaLibrary.add_content h c self))
    = (self', Return true)
    /\ MediaLibrary._content self' = MediaLibrary._content self
    /\ forall k,
        MediaLibrary._content_by_type self' k
        = MediaLibrary._content_by_type self k.
Proof.
  intros Hr Hnin Hnone. apply reachable_in_sync in Hr.
  pose proof (add_content_in_sync c Hr) as Hs1.
  assert (Hc1 : MediaLibrary._content (fst (MediaLibrary.add_content h c self))
                = MediaLibrary._content self ++ [c]).
  { unfold MediaLibrary.add_content.
    now rewrite (proj2 (contains_false_iff _ _) Hnin). }
  destruct (@remove_content_at h (MediaContent.title (super (h c)))
              (fst (MediaLibrary.add_content h c self))
              (MediaLibrary._content self) c [] Hs1 Hc1 Hnone
              (title_matches_own h c))
    as [self' [E [Hc' [Hs' _]]]].
  exists self'. split; [exact E|]. rewrite app_nil_r in Hc'.
  split; [exact Hc'|]. intros k.
  now rewrite (in_sync_at k Hs'), (in_sync_at k Hr), Hc'.
Qed.

Lemma add_then_remove_witness :
  let s := run (shelf, MediaLibrary.init 0 "Home")
             [AddContent 0%nat; AddContent 1%nat] in
  exists self',
    MediaLibrary.remove_content (fst s) "C"
      (fst (MediaLibrary.add_content (fst s) 2%nat (snd s)))
    = (self', Return true)
    /\ MediaLibrary._content self' = [0%nat; 1%nat].
Proof.
  intros s.
  assert (Hr : reachable (fst s, snd s)).
  { exists shelf, 0, "Home", [AddContent 0%nat; AddContent 1%nat].
    reflexivity. }
  destruct (@add_then_remove (fst s) (snd s) 2%nat Hr) as [self' [E [Hc _]]].
  - simpl. intros [H|[H|[]]]; discriminate.
  - simpl. intros c' [<-|[<-|[]]]; reflexivity.
  - exists self'. split; [exact E|exact Hc].
Defined.

(** X16: in every state that a new library reaches, [remove_content]
    returns and does not raise; it returns true exactly when the title of
    some record of the library equals the given title once both are
    lowered, and [total_content] then falls by one and otherwise stays.
    Two titles that differ by case only remove the same record. *)
Theorem remove_content_total (h : heap) (self : MediaLibrary.t)
    (title : string) :
  reachable (h, self) ->
  exists self' removed,
    MediaLibrary.remove_content h title self = (self', Return removed)
    /\ (removed = true
        <-> exists c,
            In c (MediaLibrary._content self)
            /\ Str.lower (MediaContent.title (super (h c)))
               = Str.lower title)
    /\ MediaLibrary.total_content self'
       = MediaLibrary.total_content self - (if removed then 1 else 0)
    /\ forall title',
        Str.lower title' = Str.lower title ->
        MediaLibrary.remove_content h title' self
        = MediaLibrary.remove_content h title self.
Proof.
  intros Hr.
  assert (Hcase : forall title',
             Str.lower title' = Str.lower title ->
             MediaLibrary.remove_content h title' self
             = MediaLibrary.remove_content h title self).
  { intros title' E.
    unfold MediaLibrary.remove_content, MediaLibrary.title_matches.
    now rewrite E. }
  pose proof (find_first (MediaLibrary.title_matches h title)
                (MediaLibrary._content self)) as Hf.
  destruct (find (MediaLibrary.title_matches h title)
              (MediaLibrary._content self)) as [c|] eqn:Ef.
  - destruct Hf as [before [after [Hc [Hm Hb]]]].
    destruct (@remove_content_at h title self before c after
                (reachable_in_sync Hr) Hc Hb Hm) as [self' [E [Hc' _]]].
    exists self', true. split; [exact E|]. split; [|split; [|exact Hcase]].
    + split; [|reflexivity]. intros _. exists c. split.
      * rewrite Hc. apply in_elt.
      * now apply String.eqb_eq.
    + unfold MediaLibrary.total_content. rewrite Hc', Hc, !length_app.
      simpl List.length. lia.
  - exists self, false. split.
    + unfold MediaLibrary.remove_content. now rewrite Ef.
    + split; [|split; [lia|exact Hcase]].
      split; [discriminate|]. intros [c [Hin E]].
      apply String.eqb_eq in E. fold (MediaLibrary.title_matches h title c) in E.
      rewrite (Hf c Hin) in E. discriminate.
Qed.

Lemma remove_content_total_witness :
  let s := run (mixed, MediaLibrary.init 0 "Home")
             [AddContent 0%nat; AddContent 1%nat] in
  MediaLibrary.remove_content (fst s) "aLiEn" (snd s)
  = MediaLibrary.remove_content (fst s) "ALIEN" (snd s)
  /\ exists self' removed,
      MediaLibrary.remove_content (fst s) "Blade" (snd s)
      = (self', Return removed)
      /\ MediaLibrary.total_content self' = 2.
Proof.
  intros s.
  assert (Hr : reachable (fst s, snd s)).
  { exists mixed, 0, "Home", [AddContent 0%nat; AddContent 1%nat].
    reflexivity. }
  split.
  - destruct (remove_content_total "ALIEN" Hr) as [_ [_ [_ [_ [_ H]]]]].
    apply H. reflexivity.
  - destruct (remove_content_total "Blade" Hr)
      as [self' [removed [E [Hiff [Ht _]]]]].
    exists self', removed. split; [exact E|]. rewrite Ht.
    destruct removed; [|reflexivity].
    destruct (proj1 Hiff eq_refl) as [c [Hin Hc]].
    simpl in Hin. destruct Hin as [<-|[<-|[]]]; discriminate.
Defined.

(** ** Searching *)

(** X17: without a filter, a query that is empty or made of blanks
    returns the whole collection in its order; with any query, the search
    with a filter returns records that the search without the filter
    returns, and every search returns records of the library. *)
Theorem search_edges (h : heap) (now : Z) (self : MediaLibrary.t)
    (query : string) :
  (Str.strip query = EmptyString ->
   MediaLibrary.search h now self query None = MediaLibrary._content self)
  /\ (forall f c,
         In c (MediaLibrary.search h now self query (Some f)) ->
         In c (MediaLibrary.search h now self query None))
  /\ (forall filters c,
         In c (MediaLibrary.search h now self query filters) ->
         In c (MediaLibrary._content self)).
Proof.
  unfold MediaLibrary.search. split; [|split].
  - intros H.
    rewrite <- (filter_true (MediaLibrary._content self)) at 2.
    apply filter_ext. intros c.
    rewrite (matches_search_blank (super (h c)) query H).
    now rewrite andb_false_r.
  - intros f c Hin. apply filter_In in Hin. destruct Hin as [Hin Hk].
    apply filter_In. split; [exact Hin|].
    destruct (Str.truthy query
              && negb (MediaContent.matches_search (super (h c)) query));
      [discriminate|reflexivity].
  - intros filters c Hin. now apply filter_In in Hin.
Qed.

Lemma search_edges_witness :
  let s := run (mixed, MediaLibrary.init 0 "Home")
             [AddContent 0%nat; AddContent 1%nat] in
  MediaLibrary.search (fst s) 0 (snd s) "  " None = [0%nat; 1%nat].
Proof.
  intros s.
  rewrite (proj1 (search_edges (fst s) 0 (snd s) "  ") eq_refl).
  reflexivity.
Defined.

(** ** Most viewed *)

(** X18: for a limit that is not negative, [get_most_viewed] returns the
    first [limit] items of a ranking of the whole collection: the ranking
    is a rearrangement of the collection, its view counts never increase,
    and the records of one view count stand in it in the order of the
    collection.  The result has [limit] records, or all of them when the
    library holds fewer. *)
Theorem get_most_viewed_spec (h : heap) (self : MediaLibrary.t) (limit : Z) :
  0 <= limit ->
  let views := fun c => MediaContent.view_count (super (h c)) in
  exists ranking,
    MediaLibrary.get_most_viewed h self limit
    = firstn (Z.to_nat limit) ranking
    /\ Permutation ranking (MediaLibrary._content self)
    /\ StronglySorted (fun x y => views y <= views x) ranking
    /\ (forall n,
           filter (fun c => views c =? n) ranking
           = filter (fun c => views c =? n) (MediaLibrary._content self))
    /\ Z.of_nat (List.length (MediaLibrary.get_most_viewed h self limit))
       = Z.min limit (MediaLibrary.total_content self).
Proof.
  intros Hl views.
  set (ranking := Py.sorted_int (MediaLibrary._content self) views true).
  assert (Hp : Permutation ranking (MediaLibrary._content self))
    by apply stable_sort_perm.
  assert (E : MediaLibrary.get_most_viewed h self limit
              = firstn (Z.to_nat limit) ranking)
    by (now apply slice_to_firstn).
  exists ranking. split; [exact E|]. split; [exact Hp|]. split; [|split].
  - unfold ranking, Py.sorted_int.
    eapply StronglySorted_weaken; [|apply stable_sort_sorted].
    + intros x y Hxy. cbv beta iota in Hxy. now apply Z.ltb_ge in Hxy.
    + intros x y Hxy. apply Z.ltb_lt in Hxy. apply Z.ltb_ge. lia.
    + intros x y z Hxy Hyz. apply Z.ltb_ge in Hxy, Hyz. apply Z.ltb_ge. lia.
  - intros n. unfold ranking, Py.sorted_int. apply stable_sort_stable.
    intros x y Hx Hy. apply Z.eqb_eq in Hx, Hy. apply Z.ltb_ge. lia.
  - rewrite E, length_firstn, (Permutation_length Hp).
    unfold MediaLibrary.total_content. lia.
Qed.

Lemma get_most_viewed_spec_witness :
  let s := run (mixed, MediaLibrary.init 0 "Home")
             [AddContent 0%nat; AddContent 1%nat; AddContent 2%nat;
              AddView 1%nat; AddView 2%nat] in
  MediaLibrary.get_most_viewed (fst s) (snd s) 2 = [1%nat; 2%nat]
  /\ Z.of_nat
       (List.length (MediaLibrary.get_most_viewed (fst s) (snd s) 5)) = 3.
Proof.
  intros s. split; [reflexivity|].
  destruct (@get_most_viewed_spec (fst s) (snd s) 5) as [_ [_ [_ [_ [_ H]]]]];
    [lia|].
  rewrite H. reflexivity.
Defined.

(** ** Age and availability *)

(** X19: [is_age_appropriate] never turns false as the age grows; it
    holds at every age, negative ones included, for G, PG and Unrated; it
    holds from 13, 17 and 18 on for PG-13, R and NC-17, hence from 18 on
    for every record. *)
Theorem age_appropriate_spec (self : MediaContent.t) (user_age : Z) :
  (forall older,
      user_age <= older ->
      MediaContent.is_age_appropriate self user_age = true ->
      MediaContent.is_age_appropriate self older = true)
  /\ (18 <= user_age -> MediaContent.is_age_appropriate self user_age = true)
  /\ (MediaContent.is_age_appropriate self user_age = true
      <-> match MediaContent.content_rating self with
          | G | PG | UNRATED => True
          | PG_13 => 13 <= user_age
          | R => 17 <= user_age
          | NC_17 => 18 <= user_age
          end).
Proof.
  unfold MediaContent.is_age_appropriate.
  destruct (MediaContent.content_rating self);
    rewrite ?Z.leb_le; repeat split; intros; try lia; auto;
    apply Z.leb_le; lia.
Qed.

Lemma age_appropriate_spec_witness :
  MediaContent.is_age_appropriate (sample_base "Dune") 40 = true
  /\ MediaContent.is_age_appropriate (sample_base "Dune") 12 = false.
Proof.
  split.
  - apply (proj1 (proj2 (age_appropriate_spec (sample_base "Dune") 40))). lia.
  - destruct (MediaContent.is_age_appropriate (sample_base "Dune") 12) eqn:E;
      [|reflexivity].
    apply (proj2 (proj2 (age_appropriate_spec (sample_base "Dune") 12))) in E.
    simpl in E. lia.
Defined.

(** X20: an object can be streamed exactly when [get_streaming_url]
    returns an address.  Records that are not movies can be streamed at
    any time; a movie can be streamed exactly when more than 90 days have
    passed since its release.  An address given at one time is given,
    the same, at every later time. *)
Theorem streaming_is_monotone (now : Z) (o : object) :
  (can_stream now o = true <-> exists url, get_streaming_url now o = Return url)
  /\ (get_media_type o <> MOVIE -> can_stream now o = true)
  /\ (get_media_type o = MOVIE ->
      (can_stream now o = true
       <-> MediaContent.release_date (super o) + 90 * 86400000000 < now))
  /\ (forall later url,
         now <= later ->
         get_streaming_url now o = Return url ->
         get_streaming_url later o = Return url).
Proof.
  destruct o as [m|s|m|p];
    try (simpl;
         split; [split; [intros _; eexists; reflexivity|intros _; reflexivity]|];
         split; [intros _; reflexivity|]; split; [discriminate|];
         intros later url _ H; exact H).
  unfold get_streaming_url, can_stream, get_media_type, super,
    Movie.get_streaming_url, Movie.can_stream,
    MediaContent.is_recently_released, timedelta_days, microseconds_per_day,
    MediaContent.release_date.
  set (t := MediaContent._release_date (Movie.base m)).
  assert (Hb : forall n,
             negb (n - 90 * 86400000000 <=? t) = true
             <-> t + 90 * 86400000000 < n).
  { intros n. rewrite negb_true_iff, Z.leb_gt. lia. }
  split; [|split; [intros H; exfalso; now apply H|split]].
  - destruct (negb (now - 90 * 86400000000 <=? t)); cbn [negb].
    + split; [|reflexivity]. intros _. eexists. reflexivity.
    + split; [discriminate|]. intros [url Hu]. discriminate.
  - intros _. apply Hb.
  - intros later url Hl.
    destruct (negb (now - 90 * 86400000000 <=? t)) eqn:En; cbn [negb];
      [|discriminate].
    apply Hb in En.
    assert (El : negb (later - 90 * 86400000000 <=? t) = true)
      by (apply Hb; lia).
    rewrite El. trivial.
Qed.

Lemma streaming_is_monotone_witness :
  get_streaming_url (200 * 86400000000) (mixed 0%nat)
  = Return "https://stream.example.com/movies/alien"
  /\ can_stream 0 (mixed 1%nat) = true.
Proof.
  split.
  - apply (proj2 (proj2 (proj2
             (streaming_is_monotone (100 * 86400000000) (mixed 0%nat))))).
    + lia.
    + reflexivity.
  - apply (proj1 (proj2 (streaming_is_monotone 0 (mixed 1%nat)))).
    discriminate.
Defined.

(** ** Construction of the four kinds *)

(** X21: [Movie.__init__] raises what [MediaContent.__init__] raises, if
    it raises, and otherwise raises exactly when the director is the empty
    string.  The movie it returns holds the record of the base class, the
    trimmed director, and budget and box office as given, [None], zero
    and negative amounts included. *)
Theorem movie_init_spec now title duration_minutes release_date content_rating
    genres description director cast budget box_office :
  let base :=
    MediaContent.init now title duration_minutes release_date content_rating
      genres description in
  let result :=
    Movie.init now title duration_minutes release_date content_rating genres
      description director cast budget box_office in
  (forall e, base = Raise e -> result = Raise e)
  /\ (forall r, base = Return r -> director = EmptyString ->
                result = Raise (ValueError "Director must be a non-empty string"))
  /\ (forall r, base = Return r -> director <> EmptyString ->
                exists m,
                  result = Return m
                  /\ Movie.base m = r
                  /\ Movie.director m = Str.strip director
                  /\ Movie.budget m = budget
                  /\ Movie.box_office m = box_office
                  /\ get_media_type (AMovie m) = MOVIE).
Proof.
  cbv zeta. unfold Movie.init. split; [|split].
  - intros e ->. reflexivity.
  - intros r -> ->. reflexivity.
  - intros r -> Hd. simpl. apply truthy_iff in Hd. rewrite Hd. simpl.
    eexists. repeat split.
Qed.

Lemma movie_init_spec_witness :
  Movie.init 0 "Dune" 120 0 G [] "A film" EmptyString [] None None
  = Raise (ValueError "Genres must be a non-empty list")
  /\ Movie.init 0 "Dune" 120 0 G ["drama"] "A film" EmptyString [] None None
     = Raise (ValueError "Director must be a non-empty string").
Proof.
  split.
  - apply (proj1 (movie_init_spec 0 "Dune" 120 0 G [] "A film" EmptyString []
                    None None)).
    reflexivity.
  - eapply (proj1 (proj2 (movie_init_spec 0 "Dune" 120 0 G ["drama"] "A film"
                            EmptyString [] None None))); reflexivity.
Defined.

(** X22: [TVShow.__init__] raises what [MediaContent.__init__] raises, if
    it raises; otherwise it tests seasons, episodes and status in that
    order and raises at the first test that fails.  The status is compared
    as it is given, with its case.  The show it returns has a total
    runtime of duration times episodes, which is at least the duration of
    one episode. *)
Theorem tvshow_init_spec now title duration_minutes release_date content_rating
    genres description seasons total_episodes status :
  let base :=
    MediaContent.init now title duration_minutes release_date content_rating
      genres description in
  let result :=
    TVShow.init now title duration_minutes release_date content_rating genres
      description seasons total_episodes status in
  (forall e, base = Raise e -> result = Raise e)
  /\ (forall r, base = Return r -> seasons <= 0 ->
                result = Raise (ValueError "Seasons must be a positive integer"))
  /\ (forall r, base = Return r -> 0 < seasons -> total_episodes <= 0 ->
                result
                = Raise (ValueError "Total episodes must be a positive integer"))
  /\ (forall r, base = Return r -> 0 < seasons -> 0 < total_episodes ->
                ~ In status ["ongoing"; "completed"; "cancelled"] ->
                result
                = Raise (ValueError
                           "Status must be 'ongoing', 'completed', or 'cancelled'"))
  /\ (forall r, base = Return r -> 0 < seasons -> 0 < total_episodes ->
                In status ["ongoing"; "completed"; "cancelled"] ->
                exists s,
                  result = Return s
                  /\ TVShow.base s = r
                  /\ TVShow.seasons s = seasons
                  /\ TVShow.total_episodes s = total_episodes
                  /\ TVShow.status s = status
                  /\ TVShow.total_runtime_minutes s
                     = duration_minutes * total_episodes
                  /\ TVShow.average_episode_duration s
                     <= TVShow.total_runtime_minutes s).
Proof.
  cbv zeta. unfold TVShow.init.
  assert (Hst : existsb (String.eqb status) ["ongoing"; "completed"; "cancelled"]
                = true
                <-> In status ["ongoing"; "completed"; "cancelled"]).
  { rewrite existsb_exists. split.
    - intros [x [Hin E]]. apply String.eqb_eq in E. now subst.
    - intros Hin. exists status. split; [exact Hin|apply String.eqb_refl]. }
  split; [intros e ->; reflexivity|].
  split; [intros r -> Hs; simpl; destruct (Z.leb_spec seasons 0);
          [reflexivity|lia]|].
  split; [intros r -> Hs He; simpl; destruct (Z.leb_spec seasons 0); [lia|];
          destruct (Z.leb_spec total_episodes 0); [reflexivity|lia]|].
  split.
  - intros r -> Hs He Hn. cbn [bind].
    destruct (Z.leb_spec seasons 0); [lia|].
    destruct (Z.leb_spec total_episodes 0); [lia|].
    destruct (existsb (String.eqb status) ["ongoing"; "completed"; "cancelled"])
      eqn:E; [|reflexivity].
    exfalso. apply Hn. now apply Hst.
  - intros r Hr Hs He Hin.
    destruct (init_returns _ _ _ _ _ _ _ Hr) as [_ [Hd [_ Er]]].
    rewrite Hr. cbn [bind].
    destruct (Z.leb_spec seasons 0); [lia|].
    destruct (Z.leb_spec total_episodes 0); [lia|].
    apply Hst in Hin. rewrite Hin. cbn [negb].
    eexists. split; [reflexivity|].
    unfold TVShow.total_runtime_minutes, TVShow.average_episode_duration,
      MediaContent.duration_minutes. simpl. rewrite Er. simpl.
    repeat split. nia.
Qed.

Lemma tvshow_init_spec_witness :
  TVShow.init 0 "Dark" 50 0 R ["drama"] "A series" 3 26 "Ongoing"
  = Raise (ValueError "Status must be 'ongoing', 'completed', or 'cancelled'")
  /\ exists s,
      TVShow.init 0 "Dark" 50 0 R ["drama"] "A series" 3 26 "completed"
      = Return s
      /\ TVShow.total_runtime_minutes s = 1300.
Proof.
  split.
  - eapply (proj1 (proj2 (proj2 (proj2
              (tvshow_init_spec 0 "Dark" 50 0 R ["drama"] "A series" 3 26
                 "Ongoing"))))); [reflexivity|lia|lia|].
    simpl. intros [H|[H|[H|[]]]]; discriminate.
  - edestruct (proj2 (proj2 (proj2 (proj2
                 (tvshow_init_spec 0 "Dark" 50 0 R ["drama"] "A series" 3 26
                    "completed")))))
      as [s [E [_ [_ [_ [_ [Ht _]]]]]]];
      [reflexivity|lia|lia|simpl; tauto|].
    exists s. split; [exact E|]. rewrite Ht. reflexivity.
Defined.

(** X23: [Music.__init__] raises what [MediaContent.__init__] raises, if
    it raises; otherwise it tests artist, album and track number in that
    order and raises at the first test that fails, and returns a track
    with the trimmed artist and album when none does. *)
Theorem music_init_spec now title duration_minutes release_date content_rating
    genres description artist album track_number is_explicit :
  let base :=
    MediaContent.init now title duration_minutes release_date content_rating
      genres description in
  let result :=
    Music.init now title duration_minutes release_date content_rating genres
      description artist album track_number is_explicit in
  (forall e, base = Raise e -> result = Raise e)
  /\ (forall r, base = Return r -> artist = EmptyString ->
                result = Raise (ValueError "Artist must be a non-empty string"))
  /\ (forall r, base = Return r -> artist <> EmptyString ->
                album = EmptyString ->
                result = Raise (ValueError "Album must be a non-empty string"))
  /\ (forall r, base = Return r -> artist <> EmptyString ->
                album <> EmptyString -> track_number <= 0 ->
                result
                = Raise (ValueError "Track number must be a positive integer"))
  /\ (forall r, base = Return r -> artist <> EmptyString ->
                album <> EmptyString -> 0 < track_number ->
                result
                = Return (Music.mk r (Str.strip artist) (Str.strip album)
                            track_number is_explicit)).
Proof.
  cbv zeta. unfold Music.init.
  split; [intros e ->; reflexivity|].
  split; [intros r -> ->; reflexivity|].
  split; [intros r -> Ha ->; apply truthy_iff in Ha; simpl; now rewrite Ha|].
  split; intros r -> Ha Hb Ht; apply truthy_iff in Ha, Hb; simpl;
    rewrite Ha, Hb; simpl; destruct (Z.leb_spec track_number 0);
    try lia; reflexivity.
Qed.

Lemma music_init_spec_witness :
  Music.init 0 "Intro" 3 0 G ["pop"] "A song" "The xx" EmptyString 1 false
  = Raise (ValueError "Album must be a non-empty string").
Proof.
  eapply (proj1 (proj2 (proj2
            (music_init_spec 0 "Intro" 3 0 G ["pop"] "A song" "The xx"
               EmptyString 1 false))));
    [reflexivity|discriminate|reflexivity].
Defined.

(** X24: [Podcast.__init__] raises what [MediaContent.__init__] raises, if
    it raises; otherwise it tests host, episode number and season number
    in that order and raises at the first test that fails, and returns an
    episode with the trimmed host when none does. *)
Theorem podcast_init_spec now title duration_minutes release_date
    content_rating genres description host episode_number season_number
    transcript_available :
  let base :=
    MediaContent.init now title duration_minutes release_date content_rating
      genres description in
  let result :=
    Podcast.init now title duration_minutes release_date content_rating genres
      description host episode_number season_number transcript_available in
  (forall e, base = Raise e -> result = Raise e)
  /\ (forall r, base = Return r -> host = EmptyString ->
                result = Raise (ValueError "Host must be a non-empty string"))
  /\ (forall r, base = Return r -> host <> EmptyString ->
                episode_number <= 0 ->
                result
                = Raise (ValueError "Episode number must be a positive integer"))
  /\ (forall r, base = Return r -> host <> EmptyString ->
                0 < episode_number -> season_number <= 0 ->
                result
                = Raise (ValueError "Season number must be a positive integer"))
  /\ (forall r, base = Return r -> host <> EmptyString ->
                0 < episode_number -> 0 < season_number ->
                result
                = Return (Podcast.mk r (Str.strip host) episode_number
                            season_number transcript_available)).
Proof.
  cbv zeta. unfold Podcast.init.
  split; [intros e ->; reflexivity|].
  split; [intros r -> ->; reflexivity|].
  split; [intros r -> Hh He; apply truthy_iff in Hh; simpl; rewrite Hh; simpl;
          destruct (Z.leb_spec episode_number 0); [reflexivity|lia]|].
  split; intros r -> Hh He Hs; apply truthy_iff in Hh; simpl;
    rewrite Hh; simpl; destruct (Z.leb_spec episode_number 0); try lia;
    destruct (Z.leb_spec season_number 0); try lia; reflexivity.
Qed.

Lemma podcast_init_spec_witness :
  Podcast.init 0 "Pilot" 30 0 G ["talk"] "An episode" "Ann" 0 0 false
  = Raise (ValueError "Episode number must be a positive integer").
Proof.
  eapply (proj1 (proj2 (proj2
            (podcast_init_spec 0 "Pilot" 30 0 G ["talk"] "An episode" "Ann"
               0 0 false))));
    [reflexivity|discriminate|lia].
Defined.

(** ** Addresses *)

Lemma free_of_app (c : ascii) (a b : string) :
  free_of c a -> free_of c b -> free_of c (a ++ b)%string.
Proof. induction a as [|x a IH]; simpl; [trivial|]. intuition. Qed.

Lemma replace_free (a b : ascii) (s : string) :
  b <> a -> free_of a (Str.replace_char a b s).
Proof.
  intros Hne. induction s as [|c s IH]; simpl; [trivial|].
  split; [|exact IH].
  destruct (Ascii.eqb_spec c a); [exact Hne|assumption].
Qed.

Lemma lower_app (a b : string) :
  Str.lower (a ++ b)%string = (Str.lower a ++ Str.lower b)%string.
Proof. induction a as [|x a IH]; simpl; [reflexivity|]. now rewrite IH. Qed.

Lemma lower_replace (a b : ascii) (s : string) :
  Str.lower_char b = b ->
  Str.lower (Str.replace_char a b (Str.lower s))
  = Str.replace_char a b (Str.lower s).
Proof.
  intros Hb. induction s as [|c s IH]; simpl; [reflexivity|].
  rewrite IH. f_equal.
  destruct (Ascii.eqb (Str.lower_char c) a); [exact Hb|apply lower_char_idem].
Qed.

Lemma Return_inj (A : Type) (a b : A) : Return a = Return b -> a = b.
Proof. congruence. Qed.

(** X25: an address that [get_streaming_url] returns for a movie, a
    show or a music track holds no blank and no capital letter: lowering
    it changes nothing. *)
Theorem streaming_url_is_plain (now : Z) (o : object) (url : string) :
  get_media_type o <> PODCAST ->
  get_streaming_url now o = Return url ->
  free_of " "%char url /\ Str.lower url = url.
Proof.
  assert (Hslug : forall s,
             free_of " "%char (Str.replace_char " "%char "-"%char (Str.lower s))
             /\ Str.lower (Str.replace_char " "%char "-"%char (Str.lower s))
                = Str.replace_char " "%char "-"%char (Str.lower s)).
  { intros s. split; [apply replace_free; discriminate|].
    apply lower_replace. reflexivity. }
  assert (Hcat : forall a b,
             (free_of " "%char a /\ Str.lower a = a) ->
             (free_of " "%char b /\ Str.lower b = b) ->
             free_of " "%char (a ++ b)%string
             /\ Str.lower (a ++ b)%string = (a ++ b)%string).
  { intros a b [Ha1 Ha2] [Hb1 Hb2]. split; [now apply free_of_app|].
    now rewrite lower_app, Ha2, Hb2. }
  assert (Hlit : forall a,
             free_of " "%char a -> Str.lower a = a ->
             free_of " "%char a /\ Str.lower a = a) by auto.
  intros Hk.
  destruct o as [m|s|m|p]; unfold get_streaming_url.
  - unfold Movie.get_streaming_url, Movie.slug.
    destruct (negb (Movie.can_stream now m)); [discriminate|].
    intros E. apply Return_inj in E. subst url. apply Hcat; [|apply Hslug].
    apply Hlit; [|reflexivity]. simpl. repeat split; discriminate.
  - intros E. apply Return_inj in E. subst url.
    unfold TVShow.get_streaming_url.
    apply Hcat; [|apply Hslug].
    apply Hlit; [|reflexivity]. simpl. repeat split; discriminate.
  - intros E. apply Return_inj in E. subst url.
    unfold Music.get_streaming_url.
    apply Hcat; [|apply Hslug].
    apply Hlit; [|reflexivity]. simpl. repeat split; discriminate.
  - exfalso. now apply Hk.
Qed.

Lemma streaming_url_is_plain_witness :
  free_of " "%char "https://stream.example.com/shows/alien".
Proof.
  apply (@streaming_url_is_plain 0 (mixed 1%nat)
           "https://stream.example.com/shows/alien").
  - discriminate.
  - reflexivity.
Defined.

(** ** Formatted durations *)

Lemma uint_digits (u : uint) : digits (NilEmpty.string_of_uint u).
Proof. induction u; simpl; auto. Qed.

Lemma of_int_digits (n : Z) : 0 <= n -> digits (Str.of_int n).
Proof.
  intros Hn. unfold Str.of_int.
  destruct n as [|p|p]; [simpl; auto| |lia].
  simpl. pose proof (Unsigned.to_uint_nonnil p) as Hnil.
  pose proof (uint_digits (Pos.to_uint p)) as Hd.
  destruct (Pos.to_uint p); [congruence|exact Hd..].
Qed.

Lemma of_int_inj (n n' : Z) : Str.of_int n = Str.of_int n' -> n = n'.
Proof.
  unfold Str.of_int. intros H.
  assert (Hnil : forall z, Z.to_int z <> Pos Nil /\ Z.to_int z <> Neg Nil).
  { intros [|p|p]; simpl; split; try discriminate;
      intros [= E]; exact (Unsigned.to_uint_nonnil p E). }
  apply to_int_inj.
  assert (E : NilZero.int_of_string (NilZero.string_of_int (Z.to_int n))
              = NilZero.int_of_string (NilZero.string_of_int (Z.to_int n')))
    by (now rewrite H).
  rewrite !NilZero.isi in E by apply Hnil.
  now injection E.
Qed.

Lemma digits_then (a a' : string) (c c' : ascii) (r r' : string) :
  digits a -> digits a' -> is_digit c = false -> is_digit c' = false ->
  (a ++ String c r)%string = (a' ++ String c' r')%string ->
  a = a' /\ c = c' /\ r = r'.
Proof.
  revert a'. induction a as [|x a IH]; intros [|y a'] Ha Ha' Hc Hc' E;
    simpl in *.
  - injection E as -> ->. auto.
  - injection E as -> _. destruct Ha'. congruence.
  - injection E as -> _. destruct Ha. congruence.
  - injection E as -> E. destruct Ha as [_ Ha], Ha' as [_ Ha'].
    destruct (IH a' Ha Ha' Hc Hc' E) as [-> [-> ->]]. auto.
Qed.

(** X26: for positive durations, [duration_formatted] prints the minutes
    alone below one hour and hours and minutes from one hour on, and two
    records whose durations differ never print the same. *)
Theorem duration_formatted_spec (self other : MediaContent.t) :
  0 < MediaContent.duration_minutes self ->
  0 < MediaContent.duration_minutes other ->
  (MediaContent.duration_minutes self < 60 ->
   MediaContent.duration_formatted self
   = (Str.of_int (MediaContent.duration_minutes self) ++ "m")%string)
  /\ (60 <= MediaContent.duration_minutes self ->
      MediaContent.duration_formatted self
      = (Str.of_int (MediaContent.duration_minutes self / 60) ++ "h "
           ++ Str.of_int (MediaContent.duration_minutes self mod 60) ++ "m")%string)
  /\ (MediaContent.duration_formatted self
      = MediaContent.duration_formatted other ->
      MediaContent.duration_minutes self = MediaContent.duration_minutes other).
Proof.
  unfold MediaContent.duration_formatted, MediaContent.duration_minutes.
  set (d := MediaContent._duration_minutes self).
  set (d' := MediaContent._duration_minutes other).
  intros Hd Hd'. split; [|split].
  - intros Hlt. rewrite Z.div_small, Z.mod_small by lia. reflexivity.
  - intros Hge. assert (0 < d / 60) by (apply Z.div_str_pos; lia).
    destruct (Z.ltb_spec 0 (d / 60)); [reflexivity|lia].
  - pose proof (Z.div_mod d 60) as Hdm. pose proof (Z.div_mod d' 60) as Hdm'.
    pose proof (Z.mod_pos_bound d 60) as Hm.
    pose proof (Z.mod_pos_bound d' 60) as Hm'.
    assert (Hq : 0 <= d / 60) by (apply Z.div_pos; lia).
    assert (Hq' : 0 <= d' / 60) by (apply Z.div_pos; lia).
    assert (Hh : is_digit "h"%char = false) by reflexivity.
    assert (Hmm : is_digit "m"%char = false) by reflexivity.
    change (fun a b : string =>
              (a ++ "h " ++ b ++ "m")%string)
      with (fun a b : string =>
              (a ++ String "h"%char (String " "%char (b ++ String "m"%char EmptyString)))%string).
    destruct (Z.ltb_spec 0 (d / 60)); destruct (Z.ltb_spec 0 (d' / 60));
      intros E.
    + change ((Str.of_int (d / 60)
                 ++ String "h"%char
                      (String " "%char (Str.of_int (d mod 60) ++ "m")))%string
              = (Str.of_int (d' / 60)
                   ++ String "h"%char
                        (String " "%char (Str.of_int (d' mod 60) ++ "m")))%string)
        in E.
      apply digits_then in E; try (apply of_int_digits; lia); try assumption.
      destruct E as [Eh [_ Er]]. apply of_int_inj in Eh.
      injection Er as Er.
      apply (@digits_then _ _ "m"%char "m"%char EmptyString EmptyString) in Er;
        try (apply of_int_digits; lia); try assumption.
      destruct Er as [Em _]. apply of_int_inj in Em. lia.
    + change ((Str.of_int (d / 60)
                 ++ String "h"%char
                      (String " "%char (Str.of_int (d mod 60) ++ "m")))%string
              = (Str.of_int (d' mod 60) ++ String "m"%char EmptyString)%string)
        in E.
      apply digits_then in E; try (apply of_int_digits; lia); try assumption.
      destruct E as [_ [E _]]. discriminate.
    + change ((Str.of_int (d mod 60) ++ String "m"%char EmptyString)%string
              = (Str.of_int (d' / 60)
                   ++ String "h"%char
                        (String " "%char (Str.of_int (d' mod 60) ++ "m")))%string)
        in E.
      apply digits_then in E; try (apply of_int_digits; lia); try assumption.
      destruct E as [_ [E _]]. discriminate.
    + apply (@digits_then _ _ "m"%char "m"%char EmptyString EmptyString) in E;
        try (apply of_int_digits; lia); try assumption.
      destruct E as [Em _]. apply of_int_inj in Em. lia.
Qed.

Lemma duration_formatted_spec_witness :
  MediaContent.duration_formatted (sample_base "Dune") = "2h 0m".
Proof.
  rewrite (proj1 (proj2 (@duration_formatted_spec (sample_base "Dune")
                           (sample_base "Dune")
                           ltac:(reflexivity) ltac:(reflexivity)))).
  - reflexivity.
  - discriminate.
Defined.

(** ** Adding, removing and searching together *)

Lemma matches_search_same_title (self : MediaContent.t) (query : string) :
  Str.strip (Str.lower query)
  = Str.strip (Str.lower (MediaContent.title self)) ->
  MediaContent.matches_search self query = true.
Proof.
  intros E. unfold MediaContent.matches_search.
  now rewrite E, contains_strip.
Qed.

(** X27: a record that [add_content] has added is returned by every
    search without a filter whose query, lowered and trimmed, is the
    lowered and trimmed title of the record, and by searches for its
    title exactly as stored. *)
Theorem added_record_is_found (h : heap) (now : Z) (self : MediaLibrary.t)
    (c : loc) (query : string) :
  ~ In c (MediaLibrary._content self) ->
  Str.strip (Str.lower query)
  = Str.strip (Str.lower (MediaContent.title (super (h c)))) ->
  In c (MediaLibrary.search h now
          (fst (MediaLibrary.add_content h c self)) query None)
  /\ In c (MediaLibrary.search h now
             (fst (MediaLibrary.add_content h c self))
             (MediaContent.title (super (h c))) None).
Proof.
  intros Hnin E. unfold MediaLibrary.add_content.
  rewrite (proj2 (contains_false_iff _ _) Hnin).
  unfold MediaLibrary.search. simpl fst. cbn [MediaLibrary._content].
  split; apply filter_In; (split; [apply in_or_app; right; now left|]).
  - rewrite (matches_search_same_title _ _ E). now rewrite andb_false_r.
  - rewrite (matches_search_same_title (super (h c))
               (MediaContent.title (super (h c))) eq_refl).
    now rewrite andb_false_r.
Qed.

Lemma added_record_is_found_witness :
  In 1%nat
    (MediaLibrary.search mixed 0
       (fst (MediaLibrary.add_content mixed 1%nat (MediaLibrary.init 0 "Home")))
       "  Alien " None).
Proof.
  apply (@added_record_is_found mixed 0 (MediaLibrary.init 0 "Home") 1%nat
           "  Alien ").
  - simpl. tauto.
  - reflexivity.
Defined.

(** X28: in every state that a new library reaches, when [remove_content]
    returns true, a record whose title matched has left the library: the
    collection no longer holds it, [get_content_by_type] no longer lists
    it, and no search returns it, whatever the query and the filter. *)
Theorem removed_record_is_gone (h : heap) (self self' : MediaLibrary.t)
    (title : string) :
  reachable (h, self) ->
  MediaLibrary.remove_content h title self = (self', Return true) ->
  exists c,
    In c (MediaLibrary._content self)
    /\ MediaLibrary.title_matches h title c = true
    /\ ~ In c (MediaLibrary._content self')
    /\ (forall k, ~ In c (MediaLibrary.get_content_by_type self' k))
    /\ (forall now query filters,
           ~ In c (MediaLibrary.search h now self' query filters))
    /\ forall c', c' <> c ->
                  (In c' (MediaLibrary._content self')
                   <-> In c' (MediaLibrary._content self)).
Proof.
  intros Hr E.
  pose proof (reachable_NoDup Hr) as Hn.
  pose proof (find_first (MediaLibrary.title_matches h title)
                (MediaLibrary._content self)) as Hf.
  destruct (find (MediaLibrary.title_matches h title)
              (MediaLibrary._content self)) as [c|] eqn:Ef.
  - destruct Hf as [before [after [Hc [Hm Hb]]]].
    destruct (@remove_content_at h title self before c after
                (reachable_in_sync Hr) Hc Hb Hm)
      as [self1 [E1 [Hc1 [Hs1 _]]]].
    rewrite E1 in E. injection E as <-.
    assert (Hgone : ~ In c (MediaLibrary._content self1)).
    { rewrite Hc1. rewrite Hc in Hn. now apply NoDup_remove_2 in Hn. }
    exists c. split; [rewrite Hc; apply in_elt|]. split; [exact Hm|].
    split; [exact Hgone|]. split; [|split].
    + intros k Hin. unfold MediaLibrary.get_content_by_type in Hin.
      rewrite (in_sync_at k Hs1) in Hin. now apply of_kind_In in Hin.
    + intros now query filters Hin. unfold MediaLibrary.search in Hin.
      apply filter_In in Hin. tauto.
    + intros c' Hne. rewrite Hc1, Hc, !in_app_iff. simpl.
      intuition congruence.
  - unfold MediaLibrary.remove_content in E. rewrite Ef in E. discriminate.
Qed.

Lemma removed_record_is_gone_witness :
  let s := run (mixed, MediaLibrary.init 0 "Home")
             [AddContent 0%nat; AddContent 1%nat] in
  exists c,
    In c (MediaLibrary._content (snd s))
    /\ ~ In c (MediaLibrary._content
                 (fst (MediaLibrary.remove_content (fst s) "ALIEN" (snd s)))).
Proof.
  intros s.
  assert (Hr : reachable (fst s, snd s)).
  { exists mixed, 0, "Home", [AddContent 0%nat; AddContent 1%nat].
    reflexivity. }
  destruct (@removed_record_is_gone (fst s) (snd s)
              (fst (MediaLibrary.remove_content (fst s) "ALIEN" (snd s)))
              "ALIEN" Hr eq_refl) as [c [Hin [_ [Hout _]]]].
  exists c. split; assumption.
Defined.
